(** * A shallow embedding of the API gateway (gateway.py)

    The program is a FastAPI application with three handlers, [root],
    [health_check] and [gateway_proxy], a logging middleware and a static
    table [SERVICES].  Handlers are embedded as computations in a small
    monad [M] that reads the network (how every backend answers), writes a
    trace of the observable effects (log records, httpx calls) and either
    returns a value or raises a Python exception. *)

From Stdlib Require Import String Ascii List Bool ZArith NArith Lia.
Import ListNotations.

Local Open Scope string_scope.
Local Open Scope Z_scope.

(** ** Python strings

    Header names and paths reach the handlers as [str] values decoded from
    Latin-1 bytes, so one [ascii] stands for one code point below 256. *)
Module PyStr.

(** [str.lower] on one code point below 256: the ASCII capitals, and the
    Latin-1 capitals U+00C0..U+00DE apart from the multiplication sign. *)
Definition lower_char (c : ascii) : ascii :=
  let n := N_of_ascii c in
  if ((65 <=? n) && (n <=? 90))%N then ascii_of_N (n + 32)
  else if ((192 <=? n) && (n <=? 222) && negb (n =? 215))%N
       then ascii_of_N (n + 32)
  else c.

Fixpoint lower (s : string) : string :=
  match s with
  | EmptyString => EmptyString
  | String c s' => String (lower_char c) (lower s')
  end.

(** Truth value of a string: the empty string is falsy. *)
Definition truthy (s : string) : bool :=
  match s with
  | EmptyString => false
  | String _ _ => true
  end.

(** [x in xs] for a list of strings. *)
Fixpoint mem (x : string) (xs : list string) : bool :=
  match xs with
  | [] => false
  | y :: ys => String.eqb x y || mem x ys
  end.

(** [c in s] for one character. *)
Fixpoint has_char (c : ascii) (s : string) : bool :=
  match s with
  | EmptyString => false
  | String d s' => Ascii.eqb c d || has_char c s'
  end.

(** Split at the first occurrence of [c]: the text before it and the text
    after it; [None] when [c] does not occur. *)
Fixpoint split_at (c : ascii) (s : string) : option (string * string) :=
  match s with
  | EmptyString => None
  | String d s' =>
      if Ascii.eqb c d then Some (EmptyString, s')
      else match split_at c s' with
           | Some (a, b) => Some (String d a, b)
           | None => None
           end
  end.

End PyStr.

(** ** Python dictionaries

    A [dict] keeps its keys in insertion order, and assigning to a key that
    is present replaces the value where the key already stands. *)
Module PyDict.

Definition dict (V : Type) : Type := list (string * V).

Fixpoint get {V} (k : string) (d : dict V) : option V :=
  match d with
  | [] => None
  | (k', v) :: d' => if String.eqb k k' then Some v else get k d'
  end.

(** [k in d] *)
Definition contains {V} (k : string) (d : dict V) : bool :=
  match get k d with
  | Some _ => true
  | None => false
  end.

(** [d[k] = v] *)
Fixpoint set {V} (k : string) (v : V) (d : dict V) : dict V :=
  match d with
  | [] => [(k, v)]
  | (k', v') :: d' =>
      if String.eqb k k' then (k', v) :: d' else (k', v') :: set k v d'
  end.

Definition keys {V} (d : dict V) : list string := map fst d.

(** [{k: v for k, v in items}], and [dict(items)]: the pairs are assigned
    from left to right. *)
Definition of_items {V} (items : list (string * V)) : dict V :=
  fold_left (fun d kv => set (fst kv) (snd kv) d) items [].

(** The keys of a well-formed dictionary are pairwise distinct. *)
Definition wf {V} (d : dict V) : Prop := NoDup (keys d).

End PyDict.

Import PyDict.

(** ** JSON-like Python values returned by the handlers *)
#[local] Set Warnings "-register-all".
Inductive json : Type :=
| JNull
| JBool (b : bool)
| JNum (z : Z)
| JStr (s : string)
| JList (l : list json)
| JDict (d : list (string * json)).

(** ** HTTP data *)

(** What [await request.body()] gives: the bytes, or [ClientDisconnect]
    when the caller went away while the body was read. *)
Inductive body_result : Type :=
| BodyBytes (b : string)
| BodyDisconnect.

(** What [request.url.query] gives.  Starlette assembles [request.url]
    from the scheme, the Host header, the decoded path and the query string
    of the request line, and [.query] is the query [urlsplit] finds in that
    text: it need not be the query string of the request line, and when the
    text does not parse (a Host header [[], say) reading it raises
    [ValueError]. *)
Inductive url_query_result : Type :=
| Query (q : string)
| InvalidURL.

(** The inbound request as the handlers see it.  The query string is
    the one of the request line, in the visible ASCII characters the HTTP
    parser lets through. *)
Record Request : Type := mkRequest {
  method : string;                      (* request.method *)
  url_path : string;                    (* the decoded path of the URL *)
  query_string : string;                (* the query of the request line *)
  url_query : url_query_result;         (* request.url.query *)
  headers : list (string * string);     (* request.headers.items() *)
  body : body_result                    (* await request.body() *)
}.

(** The arguments of one httpx call. *)
Record upstream_request : Type := mkUpstream {
  u_method : string;
  u_url : string;
  u_headers : dict string;
  u_content : string
}.

(** An httpx response.  [r_json] is what [json.loads] makes of [r_text]:
    [None] when the text is not JSON.  [r_headers] holds the items
    [dict(response.headers)] goes through. *)
Record upstream_response : Type := mkUpstreamResponse {
  r_status_code : Z;
  r_headers : list (string * string);
  r_text : string;
  r_json : option json
}.

(** How an upstream exchange can fail in transport. *)
Inductive transport_failure : Type :=
| ConnectFailure
| ReadTimeout
| ProtocolFailure.

Inductive reply : Type :=
| Replies (r : upstream_response)
| Fails (f : transport_failure).

(** The network: how the backends answer each request sent to them. *)
Definition network : Type := upstream_request -> reply.

(** ** Exceptions *)
Inductive exn : Type :=
| TimeoutException                       (* httpx.TimeoutException *)
| ConnectError                           (* httpx.ConnectError *)
| RemoteProtocolError                    (* another httpx.HTTPError *)
| JSONDecodeError
| AttributeError (type_name attr : string)
| TypeError
| ValueError
| KeyError (key : string)
| ClientDisconnect
| HTTPException (status_code : Z) (detail : string).

Definition exn_of_failure (f : transport_failure) : exn :=
  match f with
  | ConnectFailure => ConnectError
  | ReadTimeout => TimeoutException
  | ProtocolFailure => RemoteProtocolError
  end.

(** ** Observable effects *)

(** One constructor per logging call of the source, holding the values the
    f-string interpolates. *)
Inductive log_record : Type :=
| LogRequest (m path query : string)                (* info, line 20 *)
| LogStatus (status_code : Z)                       (* info, line 22 *)
| LogRedirecting (target_url : string)              (* info, line 58 *)
| LogTimedOut                                       (* error, line 78 *)
| LogConnectFailed                                  (* error, line 82 *)
| LogErrorOccurred (e : exn)                        (* error, line 86 *)
| LogNotAlive (service_name : string) (e : exn).    (* error, line 43 *)

Inductive event : Type :=
| Logged (l : log_record)
| Called (req : upstream_request)      (* an httpx call built: a coroutine *)
| Exchanged (req : upstream_request)   (* a coroutine awaited: sent upstream *)
| Reraised (e : exn).       (* raised on to the server after the response *)

(** ** The monad of handler computations *)
Inductive result (A : Type) : Type :=
| Return (a : A)
| Raise (e : exn).
Arguments Return {A} a.
Arguments Raise {A} e.

Definition M (A : Type) : Type := network -> list event * result A.

Definition ret {A} (a : A) : M A := fun _ => ([], Return a).

Definition raise {A} (e : exn) : M A := fun _ => ([], Raise e).

Definition bind {A B} (m : M A) (k : A -> M B) : M B :=
  fun net =>
    match m net with
    | (t, Return a) => let (t', r) := k a net in ((t ++ t')%list, r)
    | (t, Raise e) => (t, Raise e)
    end.

Definition emit (ev : event) : M unit := fun _ => ([ev], Return tt).

(** [try: m  except ... as e: h e] *)
Definition try_except {A} (m : M A) (h : exn -> M A) : M A :=
  fun net =>
    match m net with
    | (t, Return a) => (t, Return a)
    | (t, Raise e) => let (t', r) := h e net in ((t ++ t')%list, r)
    end.

Declare Scope py_scope.
Delimit Scope py_scope with py.
Notation "x <- m ;; k" := (bind m (fun x => k))
  (at level 61, m at next level, right associativity) : py_scope.
Notation "m ;;; k" := (bind m (fun _ => k))
  (at level 61, right associativity) : py_scope.
Local Open Scope py_scope.

Definition trace {A} (o : list event * result A) : list event := fst o.
Definition outcome {A} (o : list event * result A) : result A := snd o.

Definition run {A} (m : M A) (net : network) : list event * result A := m net.

(** ** httpx *)

(** The objects the handlers hold in [response]: an httpx call that was
    built but not awaited is a coroutine object; awaiting it performs the
    exchange and gives a response object. *)
Inductive httpx_obj : Type :=
| Coroutine (req : upstream_request)
| Response (r : upstream_response).

Record AsyncClient : Type := mkClient { client_timeout : Z }.

(** [async with httpx.AsyncClient(timeout=t) as client: body] *)
Definition async_with_client {A} (t : Z) (body : AsyncClient -> M A) : M A :=
  body (mkClient t).

(** [client.request(method=, url=, headers=, content=)]: an [async def],
    so the call only builds the coroutine. *)
Definition client_request (client : AsyncClient) (m url : string)
  (hs : dict string) (content : string) : M httpx_obj :=
  let req := mkUpstream m url hs content in
  emit (Called req) ;;; ret (Coroutine req).

(** [client.get(url)] *)
Definition client_get (client : AsyncClient) (url : string) : M httpx_obj :=
  client_request client "GET" url [] "".

(** [await o] *)
Definition await (o : httpx_obj) : M httpx_obj :=
  match o with
  | Coroutine req =>
      emit (Exchanged req) ;;;
      (fun net => match net req with
                  | Replies r => ([], Return (Response r))
                  | Fails f => ([], Raise (exn_of_failure f))
                  end)
  | Response _ => raise TypeError
  end.

(** Attribute access on the object bound to [response]. *)
Definition getattr_text (o : httpx_obj) : M string :=
  match o with
  | Response r => ret (r_text r)
  | Coroutine _ => raise (AttributeError "coroutine" "text")
  end.

Definition getattr_status_code (o : httpx_obj) : M Z :=
  match o with
  | Response r => ret (r_status_code r)
  | Coroutine _ => raise (AttributeError "coroutine" "status_code")
  end.

Definition getattr_headers (o : httpx_obj) : M (list (string * string)) :=
  match o with
  | Response r => ret (r_headers r)
  | Coroutine _ => raise (AttributeError "coroutine" "headers")
  end.

(** [o.json()] *)
Definition call_json (o : httpx_obj) : M json :=
  match o with
  | Response r =>
      match r_json r with
      | Some j => ret j
      | None => raise JSONDecodeError
      end
  | Coroutine _ => raise (AttributeError "coroutine" "json")
  end.

(** [request.url.query] *)
Definition request_url_query (request : Request) : M string :=
  match url_query request with
  | Query q => ret q
  | InvalidURL => raise ValueError
  end.

(** [await request.body()] *)
Definition await_body (request : Request) : M string :=
  match body request with
  | BodyBytes b => ret b
  | BodyDisconnect => raise ClientDisconnect
  end.

(** [d[k]] *)
Definition getitem {V} (k : string) (d : dict V) : M V :=
  match get k d with
  | Some v => ret v
  | None => raise (KeyError k)
  end.

(** [for x in xs: body], threading the mutated object [s]. *)
Fixpoint for_each {A S} (xs : list A) (s : S) (body : A -> S -> M S) : M S :=
  match xs with
  | [] => ret s
  | x :: xs' => s' <- body x s ;; for_each xs' s' body
  end.

(** ** gateway.py *)

Definition SERVICES : dict string :=
  [ ("users", "http://localhost:8001");
    ("orders", "http://localhost:8002");
    ("products", "http://localhost:8003") ].

(** fastapi.responses.JSONResponse(content=, status_code=, headers=) *)
Record JSONResponse : Type := mkJSONResponse {
  js_content : json;
  js_status_code : Z;
  js_headers : dict string
}.

(** [root] *)
Definition root (services : dict string) : M json :=
  ret (JDict [ ("message", JStr "Welcome to the API Gateway");
               ("services", JList (map JStr (keys services))) ]).

(** [health_status["services"][service_name] = v] *)
Definition set_service_status (health_status : json) (service_name : string)
  (v : json) : M json :=
  match health_status with
  | JDict d =>
      match get "services" d with
      | Some (JDict s) =>
          ret (JDict (set "services" (JDict (set service_name v s)) d))
      | Some _ => raise TypeError
      | None => raise (KeyError "services")
      end
  | _ => raise TypeError
  end.

(** The body of the loop of [health_check], lines 38-43, for one item of
    [SERVICES.items()]. *)
Definition probe_service (client : AsyncClient) (item : string * string)
  (health_status : json) : M json :=
  let (service_name, service_url) := item in
  try_except
    (c <- client_get client (service_url ++ "/health") ;;
     response <- await c ;;
     set_service_status health_status service_name (JStr "healthy"))
    (fun e =>
       hs <- set_service_status health_status service_name
               (JStr "unhealthy") ;;
       emit (Logged (LogNotAlive service_name e)) ;;;
       ret hs).

(** [health_check], lines 32-45 *)
Definition health_check (services : dict string) : M json :=
  let health_status :=
    JDict [ ("gateway", JStr "healthy"); ("services", JDict []) ] in
  async_with_client 5 (fun client =>
    for_each services health_status (probe_service client)).

(** The header filter of lines 67-68. *)
Definition forwarded (kv : string * string) : bool :=
  negb (PyStr.mem (PyStr.lower (fst kv)) ["host"; "connection"]).

(** The three [except] clauses of [gateway_proxy], lines 77-87. *)
Definition gateway_proxy_except (e : exn) : M JSONResponse :=
  match e with
  | TimeoutException =>
      emit (Logged LogTimedOut) ;;;
      raise (HTTPException 504 "Gateway Timeout")
  | ConnectError =>
      emit (Logged LogConnectFailed) ;;;
      raise (HTTPException 503 "Service Unavailable")
  | _ =>
      emit (Logged (LogErrorOccurred e)) ;;;
      raise (HTTPException 500 "Internal Gateway Error")
  end.

(** The [return JSONResponse(...)] of lines 72-76, for the object bound to
    [response]: the condition [response.text] is read first, then the
    keyword arguments from left to right. *)
Definition relay (response : httpx_obj) : M JSONResponse :=
  text <- getattr_text response ;;
  content <- (if PyStr.truthy text then call_json response
              else ret (JDict [])) ;;
  status_code <- getattr_status_code response ;;
  hs <- getattr_headers response ;;
  ret (mkJSONResponse content status_code (of_items hs)).

(** [gateway_proxy], lines 47-87.  Line 55 reads [request.url.query]
    outside the [try], so its [ValueError] leaves the handler; line 56 reads
    the same parsed value again. *)
Definition gateway_proxy (services : dict string) (service path : string)
  (request : Request) : M JSONResponse :=
  if negb (contains service services) then
    raise (HTTPException 404 "Service not found")
  else
    service_url <- getitem service services ;;
    let target_url := service_url ++ "/" ++ path in
    query <- request_url_query request ;;
    let target_url :=
      if PyStr.truthy query then target_url ++ "?" ++ query
      else target_url in
    emit (Logged (LogRedirecting target_url)) ;;;
    try_except
      (async_with_client 30 (fun client =>
         body <- await_body request ;;
         response <- client_request client (method request) target_url
                       (of_items (filter forwarded (headers request))) body ;;
         relay response))
      gateway_proxy_except.

(** [log_requests], the middleware of lines 18-23.  The record of line 20
    interpolates the text of [request.url], of which the path and the query
    string are kept here; the text is not parsed for it. *)
Definition log_requests {R} (status_code : R -> Z) (request : Request)
  (call_next : Request -> M R) : M R :=
  emit (Logged (LogRequest (method request) (url_path request)
                  (query_string request))) ;;;
  response <- call_next request ;;
  emit (Logged (LogStatus (status_code response))) ;;;
  ret response.

(** ** The framework under the decorators

    What FastAPI and Starlette do with the declarations of gateway.py:
    the path templates become anchored regular expressions, the router
    takes the first route that matches path and method, and exceptions
    become responses. *)
Module Framework.

(** The responses the caller can get.  [hs] holds the headers a handler
    sets; those the framework adds by itself (content type and length, the
    [Allow] header of a 405) are not kept. *)
Inductive http_response : Type :=
| JSONBody (status_code : Z) (content : json) (hs : dict string)
| PlainText (status_code : Z) (text : string)
| RedirectTo (path : string)          (* 307, slash redirect *)
| OpenAPISchema.                      (* 200, the generated schema *)

Definition status_of (r : http_response) : Z :=
  match r with
  | JSONBody s _ _ => s
  | PlainText s _ => s
  | RedirectTo _ => 307
  | OpenAPISchema => 200
  end.

Definition newline : ascii := ascii_of_N 10.
Definition slash : ascii := ascii_of_N 47.

(** The anchor [$] of Python's [re]: the end of the text, or just before
    a newline that ends the text. *)
Definition at_end (s : string) : bool :=
  match s with
  | EmptyString => true
  | String c EmptyString => Ascii.eqb c newline
  | _ => false
  end.

Fixpoint strip_prefix (p s : string) : option string :=
  match p, s with
  | EmptyString, _ => Some s
  | String a p', String b s' =>
      if Ascii.eqb a b then strip_prefix p' s' else None
  | String _ _, EmptyString => None
  end.

(** A template without parameters: [^literal$]. *)
Definition match_literal (literal path : string) : bool :=
  match strip_prefix literal path with
  | Some rest => at_end rest
  | None => false
  end.

(** The [path] convertor followed by the end anchor: any run of
    characters other than a newline, up to the end of the text. *)
Definition dot_star_end (s : string) : option string :=
  match PyStr.split_at newline s with
  | None => Some s
  | Some (a, EmptyString) => Some a
  | Some (_, String _ _) => None
  end.

(** The template of line 47, [/{service}/{path:path}]: a slash, a
    non-empty [service] without slash, a slash, and the [path] rest. *)
Definition match_proxy_path (path : string) : option (string * string) :=
  match strip_prefix "/" path with
  | Some rest =>
      match PyStr.split_at slash rest with
      | Some (service, tail) =>
          if PyStr.truthy service then
            match dot_star_end tail with
            | Some p => Some (service, p)
            | None => None
            end
          else None
      | None => None
      end
  | None => None
  end.

(** The routes in the order they are registered: the schema route the
    framework adds by itself, then the decorated functions. *)
Inductive route : Type := OpenAPIRoute | RootRoute | HealthRoute | ProxyRoute.

Definition routes : list route :=
  [OpenAPIRoute; RootRoute; HealthRoute; ProxyRoute].

Definition route_methods (r : route) : list string :=
  match r with
  | OpenAPIRoute => ["GET"; "HEAD"]
  | RootRoute => ["GET"]                                     (* line 25 *)
  | HealthRoute => ["GET"]                                   (* line 32 *)
  | ProxyRoute => ["GET"; "POST"; "PUT"; "DELETE"; "PATCH"]  (* line 47 *)
  end.

Inductive endpoint : Type :=
| Openapi
| Root
| HealthCheck
| GatewayProxy (service path : string).

Definition route_path (r : route) (path : string) : option endpoint :=
  match r with
  | OpenAPIRoute =>
      if match_literal "/openapi.json" path then Some Openapi else None
  | RootRoute => if match_literal "/" path then Some Root else None
  | HealthRoute =>
      if match_literal "/health" path then Some HealthCheck else None
  | ProxyRoute =>
      match match_proxy_path path with
      | Some (service, p) => Some (GatewayProxy service p)
      | None => None
      end
  end.

Inductive route_match : Type :=
| MatchNone
| MatchPartial (e : endpoint)      (* the path matches, the method does not *)
| MatchFull (e : endpoint).

Definition matches (r : route) (m path : string) : route_match :=
  match route_path r path with
  | Some e => if PyStr.mem m (route_methods r) then MatchFull e
              else MatchPartial e
  | None => MatchNone
  end.

Fixpoint first_full (rs : list route) (m path : string) : option endpoint :=
  match rs with
  | [] => None
  | r :: rs' =>
      match matches r m path with
      | MatchFull e => Some e
      | _ => first_full rs' m path
      end
  end.

Fixpoint any_match (rs : list route) (m path : string) : bool :=
  match rs with
  | [] => false
  | r :: rs' =>
      match matches r m path with
      | MatchNone => any_match rs' m path
      | _ => true
      end
  end.

(** [path.rstrip("/")] *)
Fixpoint rstrip_slash (s : string) : string :=
  match s with
  | EmptyString => EmptyString
  | String c s' =>
      match rstrip_slash s' with
      | EmptyString => if Ascii.eqb c slash then EmptyString
                       else String c EmptyString
      | r => String c r
      end
  end.

Fixpoint ends_with_slash (s : string) : bool :=
  match s with
  | EmptyString => false
  | String c EmptyString => Ascii.eqb c slash
  | String _ s' => ends_with_slash s'
  end.

Definition toggle_slash (path : string) : string :=
  if ends_with_slash path then rstrip_slash path else path ++ "/".

Inductive routed : Type :=
| ToEndpoint (e : endpoint)
| MethodNotAllowed
| SlashRedirect (path : string)
| NotFound.

(** The router: the first full match runs; failing that a partial match
    is answered 405; failing that the path with its trailing slash toggled
    is tried for a redirect; failing that 404. *)
Definition route_request (m path : string) : routed :=
  match first_full routes m path with
  | Some e => ToEndpoint e
  | None =>
      if any_match routes m path then MethodNotAllowed
      else if negb (String.eqb path "/")
              && any_match routes m (toggle_slash path)
      then SlashRedirect (toggle_slash path)
      else NotFound
  end.

Definition call_endpoint (services : dict string) (e : endpoint)
  (request : Request) : M http_response :=
  match e with
  | Openapi => ret OpenAPISchema
  | Root => j <- root services ;; ret (JSONBody 200 j [])
  | HealthCheck => j <- health_check services ;; ret (JSONBody 200 j [])
  | GatewayProxy service path =>
      r <- gateway_proxy services service path request ;;
      ret (JSONBody (js_status_code r) (js_content r) (js_headers r))
  end.

Definition router (services : dict string) (request : Request)
  : M http_response :=
  match route_request (method request) (url_path request) with
  | ToEndpoint e => call_endpoint services e request
  | MethodNotAllowed => raise (HTTPException 405 "Method Not Allowed")
  | SlashRedirect p => ret (RedirectTo p)
  | NotFound => raise (HTTPException 404 "Not Found")
  end.

(** An [HTTPException] becomes a JSON response carrying its detail. *)
Definition exception_middleware (m : M http_response) : M http_response :=
  try_except m (fun e =>
    match e with
    | HTTPException s d => ret (JSONBody s (JDict [("detail", JStr d)]) [])
    | _ => raise e
    end).

(** Any other exception that escapes becomes a plain 500, and is then
    raised on to the server. *)
Definition server_error_middleware (m : M http_response) : M http_response :=
  try_except m (fun e =>
    emit (Reraised e) ;;; ret (PlainText 500 "Internal Server Error")).

End Framework.

Import Framework.

(** The application object [app], over a service table. *)
Definition app_on (services : dict string) (request : Request)
  : M http_response :=
  server_error_middleware
    (log_requests status_of request
       (fun request => exception_middleware (router services request))).

Definition app : Request -> M http_response := app_on SERVICES.

(** The status code the caller receives. *)
Definition response_status (o : list event * result http_response)
  : option Z :=
  match outcome o with
  | Return r => Some (status_of r)
  | Raise _ => None
  end.

(** The httpx calls a run built, and those it sent upstream. *)
Fixpoint calls (t : list event) : list upstream_request :=
  match t with
  | [] => []
  | Called req :: t' => req :: calls t'
  | _ :: t' => calls t'
  end.

Fixpoint exchanges (t : list event) : list upstream_request :=
  match t with
  | [] => []
  | Exchanged req :: t' => req :: exchanges t'
  | _ :: t' => exchanges t'
  end.

(** The exceptions a run raised on to the server. *)
Fixpoint reraised (t : list event) : list exn :=
  match t with
  | [] => []
  | Reraised e :: t' => e :: reraised t'
  | _ :: t' => reraised t'
  end.

(** The query component of a URL, as [urlsplit] and RFC 3986 cut it: the
    fragment starts at the first number sign, and the query is what follows
    the first question mark before the fragment. *)
Definition before_char (c : ascii) (s : string) : string :=
  match PyStr.split_at c s with
  | Some (a, _) => a
  | None => s
  end.

Definition query_component (url : string) : string :=
  match PyStr.split_at "?" (before_char "#" url) with
  | Some (_, q) => q
  | None => ""
  end.

(** The probe [health_check] sends for a service URL, and the status it
    records for the answer. *)
Definition probe (service_url : string) : upstream_request :=
  mkUpstream "GET" (service_url ++ "/health") [] "".

Definition probe_status (net : network) (service_url : string) : string :=
  match net (probe service_url) with
  | Replies _ => "healthy"
  | Fails _ => "unhealthy"
  end.

(** The document [health_check] builds, holding the entries [per]; the
    entry it records for one item of the table; and what probing that item
    leaves in the trace. *)
Definition status_doc (per : list (string * json)) : json :=
  JDict [ ("gateway", JStr "healthy"); ("services", JDict per) ].

Definition status_entry (net : network) (item : string * string)
  : string * json :=
  (fst item, JStr (probe_status net (snd item))).

Definition probe_trace (net : network) (item : string * string)
  : list event :=
  Called (probe (snd item)) :: Exchanged (probe (snd item)) ::
  match net (probe (snd item)) with
  | Replies _ => []
  | Fails f => [Logged (LogNotAlive (fst item) (exn_of_failure f))]
  end.

(** The URL [gateway_proxy] builds, lines 53-56. *)
Definition target_url_of (service_url path query : string) : string :=
  let target_url := service_url ++ "/" ++ path in
  if PyStr.truthy query then target_url ++ "?" ++ query else target_url.

(** Route resolution as gateway.py performs it: the template of line 47
    splits the first segment off the path, lines 49-52 look it up in the
    table, and line 53 appends the rest to the URL found.  The result is the
    URL of the service and the path sent to it. *)
Definition resolve (services : dict string) (path : string)
  : option (string * string) :=
  match match_proxy_path path with
  | Some (service, rest) =>
      match get service services with
      | Some service_url => Some (service_url, "/" ++ rest)
      | None => None
      end
  | None => None
  end.

(** The last value given to a name in a list of pairs. *)
Definition last_value (k : string) (items : list (string * string))
  : option string :=
  get k (rev items).

(** ** The specification's wording, for comparison *)
Module Spec.

(** Section 4.5, step 2: the hop-by-hop headers. *)
Definition hop_by_hop : list string :=
  [ "host"; "connection"; "keep-alive"; "proxy-authenticate";
    "proxy-authorization"; "te"; "trailer"; "transfer-encoding"; "upgrade" ].

Definition forward_headers (hs : list (string * string))
  : list (string * string) :=
  filter (fun kv => negb (PyStr.mem (PyStr.lower (fst kv)) hop_by_hop)) hs.

(** Section 4.1: longest-prefix match over routes [(prefix, serviceName)],
    stripping the matched prefix. *)
Definition better (best : option (string * string * string))
  (r : string * string) (path : string) : option (string * string * string) :=
  match strip_prefix (fst r) path with
  | Some rest =>
      match best with
      | Some (bp, _, _) =>
          if (String.length bp <? String.length (fst r))%nat
          then Some (fst r, snd r, rest) else best
      | None => Some (fst r, snd r, rest)
      end
  | None => best
  end.

Definition longest_prefix_resolve (routes : list (string * string))
  (path : string) : option (string * string) :=
  match fold_left (fun best r => better best r path) routes None with
  | Some (_, service, rest) => Some (service, rest)
  | None => None
  end.

(** Section 6: the record [{healthyCount, totalCount}] and the document
    [{gatewayStatus, perService: {serviceName: record}}]. *)
Definition is_count_record (j : json) : bool :=
  match j with
  | JDict d =>
      match get "healthyCount" d, get "totalCount" d with
      | Some (JNum _), Some (JNum _) => true
      | _, _ => false
      end
  | _ => false
  end.

Definition aggregate_health_shape (service_names : list string) (j : json)
  : bool :=
  match j with
  | JDict d =>
      match get "gatewayStatus" d, get "perService" d with
      | Some _, Some (JDict per) =>
          forallb (fun n => match get n per with
                            | Some r => is_count_record r
                            | None => false
                            end) service_names
      | _, _ => false
      end
  | _ => false
  end.

End Spec.

(** A run retried a request elsewhere when it built calls to two
    different URLs (section 4.5, step 4). *)
Definition retried_elsewhere (t : list event) : Prop :=
  exists r1 r2,
    In r1 (calls t) /\ In r2 (calls t) /\ u_url r1 <> u_url r2.

(** ** Concrete requests and networks used as examples *)
Module Scenario.

Definition ok_json : upstream_response :=
  mkUpstreamResponse 200 [("content-type", "application/json")] "{}"
    (Some (JDict [])).

(** A body that is not JSON. *)
Definition malformed : upstream_response :=
  mkUpstreamResponse 200 [("content-type", "text/html")] "<html>" None.

Definition failing_health : upstream_response :=
  mkUpstreamResponse 500 [] "down" None.

Definition all_up : network := fun _ => Replies ok_json.
Definition all_malformed : network := fun _ => Replies malformed.
Definition all_timing_out : network := fun _ => Fails ReadTimeout.
Definition all_answering_500 : network := fun _ => Replies failing_health.

(** The users service refuses connections; every other address answers. *)
Definition users_unreachable : network :=
  fun req =>
    if String.prefix "http://localhost:8001" (u_url req)
    then Fails ConnectFailure else Replies ok_json.

Definition get_user : Request :=
  mkRequest "GET" "/users/1" "" (Query "") [("host", "gateway:8000")]
    (BodyBytes "").

Definition get_user_search : Request :=
  mkRequest "GET" "/users/search" "name=ann&page=2"
    (Query "name=ann&page=2") [("host", "gateway:8000")] (BodyBytes "").

Definition post_order : Request :=
  mkRequest "POST" "/orders/checkout" "" (Query "")
    [("host", "gateway:8000"); ("content-type", "application/json")]
    (BodyBytes "{}").

Definition head_user : Request :=
  mkRequest "HEAD" "/users/1" "" (Query "") [("host", "gateway:8000")]
    (BodyBytes "").

Definition options_user : Request :=
  mkRequest "OPTIONS" "/users/1" "" (Query "") [("host", "gateway:8000")]
    (BodyBytes "").

Definition get_unknown : Request :=
  mkRequest "GET" "/payments/7" "" (Query "") [("host", "gateway:8000")]
    (BodyBytes "").

Definition get_health : Request :=
  mkRequest "GET" "/health" "" (Query "") [("host", "gateway:8000")]
    (BodyBytes "").

Definition post_health : Request :=
  mkRequest "POST" "/health" "" (Query "") [("host", "gateway:8000")]
    (BodyBytes "").

Definition get_root : Request :=
  mkRequest "GET" "/" "" (Query "") [("host", "gateway:8000")] (BodyBytes "").

(** A caller that goes away while the body is read. *)
Definition put_user_disconnected : Request :=
  mkRequest "PUT" "/users/1" "" (Query "") [("host", "gateway:8000")]
    BodyDisconnect.

(** Hop-by-hop headers next to end-to-end ones. *)
Definition get_user_hop_by_hop : Request :=
  mkRequest "GET" "/users/1" "" (Query "")
    [ ("host", "gateway:8000"); ("connection", "keep-alive");
      ("keep-alive", "timeout=5"); ("transfer-encoding", "chunked");
      ("accept", "application/json") ]
    (BodyBytes "").

(** A Host header that ends in a number sign: the URL assembled is
    [http://gateway:8000#/users/1?x=1], where path and query string fall into
    the fragment, so that [request.url.query] is empty. *)
Definition get_user_fragment_host : Request :=
  mkRequest "GET" "/users/1" "x=1" (Query "") [("host", "gateway:8000#")]
    (BodyBytes "").

(** A Host header that does not parse: the URL assembled is
    [http://[/users/1]. *)
Definition get_user_bracket_host : Request :=
  mkRequest "GET" "/users/1" "" InvalidURL [("host", "[")] (BodyBytes "").

(** The routes of the scenario of section 8, written as a table of the
    program: keyed by the segments, and keyed by the prefixes as given. *)
Definition admin_table : dict string :=
  [("users", "users-svc"); ("users/admin", "users-admin-svc")].

Definition admin_table_slashed : dict string :=
  [("/users", "users-svc"); ("/users/admin", "users-admin-svc")].

End Scenario.

(** * Properties *)

(** ** Dictionaries *)
Module PyDictFacts.

Section Facts.
Context {V : Type}.
Implicit Types (d : dict V) (k : string) (v : V).

Lemma get_app k d d' :
  get k (d ++ d')%list =
  match get k d with Some v => Some v | None => get k d' end.
Proof.
  induction d as [|[k' v'] d IH]; simpl; [reflexivity|].
  destruct (String.eqb k k'); [reflexivity | exact IH].
Qed.

Lemma get_none_not_in k d : get k d = None <-> ~ In k (keys d).
Proof.
  induction d as [|[k' v'] d IH]; simpl.
  - split; [intros _ [] | reflexivity].
  - destruct (String.eqb_spec k k') as [->|Hne].
    + split; [discriminate | intros H; exfalso; apply H; now left].
    + rewrite IH. split.
      * intros H [Heq|Hin]; [now apply Hne | now apply H].
      * intros H Hin. apply H. now right.
Qed.

Lemma get_set_same k v d : get k (set k v d) = Some v.
Proof.
  induction d as [|[k' v'] d IH]; simpl.
  - now rewrite String.eqb_refl.
  - destruct (String.eqb_spec k k') as [->|Hne]; simpl.
    + now rewrite String.eqb_refl.
    + destruct (String.eqb_spec k k'); [contradiction | exact IH].
Qed.

Lemma get_set_other k k' v d : k <> k' -> get k' (set k v d) = get k' d.
Proof.
  intros Hne.
  induction d as [|[k0 v0] d IH]; simpl.
  - destruct (String.eqb_spec k' k); [now subst | reflexivity].
  - destruct (String.eqb_spec k k0) as [->|Hne0]; simpl.
    + destruct (String.eqb_spec k' k0); [now subst | reflexivity].
    + destruct (String.eqb k' k0); [reflexivity | exact IH].
Qed.

(** Assigning to an absent key appends the pair. *)
Lemma set_fresh k v d : get k d = None -> set k v d = (d ++ [(k, v)])%list.
Proof.
  induction d as [|[k' v'] d IH]; simpl; [reflexivity|].
  destruct (String.eqb k k'); [discriminate|].
  intros H. now rewrite IH.
Qed.

Lemma keys_set_fresh k v d :
  get k d = None -> keys (set k v d) = (keys d ++ [k])%list.
Proof.
  intros H. rewrite set_fresh by exact H. unfold keys. now rewrite map_app.
Qed.

(** Assigning the pairs of [items] in turn on top of [acc]. *)
Lemma get_fold_set k (items : list (string * V)) :
  forall acc,
    get k (fold_left (fun d kv => set (fst kv) (snd kv) d) items acc) =
    match get k (rev items) with
    | Some v => Some v
    | None => get k acc
    end.
Proof.
  induction items as [|[k' v'] items IH]; intros acc; simpl; [reflexivity|].
  rewrite IH, get_app. simpl.
  destruct (get k (rev items)); [reflexivity|].
  destruct (String.eqb_spec k k') as [->|Hne].
  - apply get_set_same.
  - apply get_set_other. congruence.
Qed.

(** A comprehension keeps, for every key, the last value assigned. *)
Lemma get_of_items k (items : list (string * V)) :
  get k (of_items items) = get k (rev items).
Proof.
  unfold of_items. rewrite get_fold_set. simpl.
  now destruct (get k (rev items)).
Qed.

Lemma fold_set_distinct (items : list (string * V)) :
  forall acc,
    NoDup (keys acc ++ keys items) ->
    fold_left (fun d kv => set (fst kv) (snd kv) d) items acc
    = (acc ++ items)%list.
Proof.
  induction items as [|[k' v'] items IH]; intros acc Hnd; simpl.
  - now rewrite app_nil_r.
  - assert (Hfresh : get k' acc = None).
    { apply get_none_not_in. intros Hin.
      apply NoDup_remove_2 in Hnd. apply Hnd.
      apply in_or_app. now left. }
    rewrite IH.
    + rewrite set_fresh by exact Hfresh. now rewrite <- app_assoc.
    + rewrite keys_set_fresh by exact Hfresh.
      rewrite <- app_assoc. exact Hnd.
Qed.

(** With pairwise distinct names a comprehension keeps the list as it is. *)
Lemma of_items_distinct (items : list (string * V)) :
  NoDup (keys items) -> of_items items = items.
Proof.
  intros H. unfold of_items. now rewrite fold_set_distinct.
Qed.

(** Filtering on the key. *)
Lemma get_filter_key (p : string -> bool) k (items : list (string * V)) :
  get k (filter (fun kv => p (fst kv)) items) =
  if p k then get k items else None.
Proof.
  induction items as [|[k' v'] items IH]; simpl.
  - now destruct (p k).
  - destruct (p k') eqn:Hp; simpl.
    + destruct (String.eqb_spec k k') as [->|Hne].
      * now rewrite Hp.
      * exact IH.
    + rewrite IH. destruct (String.eqb_spec k k') as [->|Hne].
      * now rewrite Hp.
      * reflexivity.
Qed.

Lemma keys_filter_NoDup (p : string * V -> bool) (items : list (string * V)) :
  NoDup (keys items) -> NoDup (keys (filter p items)).
Proof.
  unfold keys.
  induction items as [|[k' v'] items IH]; simpl; intros Hnd; [constructor|].
  inversion Hnd as [|? ? Hnotin Hnd']; subst.
  destruct (p (k', v')); simpl.
  - constructor; [|now apply IH].
    intros Hin. apply Hnotin.
    apply in_map_iff in Hin. destruct Hin as [[k0 v0] [Hk Hin]].
    apply filter_In in Hin. destruct Hin as [Hin _].
    simpl in Hk. subst k0. change k' with (fst (k', v0)). now apply in_map.
  - now apply IH.
Qed.

End Facts.

End PyDictFacts.

Import PyDictFacts.

(** ** [gateway_proxy], run *)
Section GatewayProxy.

Variable services : dict string.
Variables service path : string.
Variable request : Request.
Variable net : network.

Ltac run_handler :=
  unfold run, gateway_proxy, contains, getitem, request_url_query,
    async_with_client, await_body, client_request, relay, getattr_text,
    gateway_proxy_except, try_except, bind, emit, raise, ret, target_url_of.

Lemma gateway_proxy_unregistered :
  get service services = None ->
  run (gateway_proxy services service path request) net
  = ([], Raise (HTTPException 404 "Service not found")).
Proof.
  intros H. run_handler. now rewrite H.
Qed.

(** A registered service and a URL that does not parse: line 55 raises
    before anything is logged or built. *)
Lemma gateway_proxy_invalid_url service_url :
  get service services = Some service_url ->
  url_query request = InvalidURL ->
  run (gateway_proxy services service path request) net
  = ([], Raise ValueError).
Proof.
  intros H Hq. run_handler. now rewrite H, Hq.
Qed.

(** A registered service and a body that could be read: the call is
    built, never awaited, and reading [response.text] fails. *)
Lemma gateway_proxy_registered service_url q b :
  get service services = Some service_url ->
  url_query request = Query q ->
  body request = BodyBytes b ->
  run (gateway_proxy services service path request) net
  = ([ Logged (LogRedirecting (target_url_of service_url path q));
       Called (mkUpstream (method request)
                 (target_url_of service_url path q)
                 (of_items (filter forwarded (headers request))) b);
       Logged (LogErrorOccurred (AttributeError "coroutine" "text")) ],
     Raise (HTTPException 500 "Internal Gateway Error")).
Proof.
  intros H Hq Hb. run_handler. rewrite H, Hq, Hb. simpl.
  destruct (PyStr.truthy q); reflexivity.
Qed.

(** A registered service and a caller that went away. *)
Lemma gateway_proxy_disconnected service_url q :
  get service services = Some service_url ->
  url_query request = Query q ->
  body request = BodyDisconnect ->
  run (gateway_proxy services service path request) net
  = ([ Logged (LogRedirecting (target_url_of service_url path q));
       Logged (LogErrorOccurred ClientDisconnect) ],
     Raise (HTTPException 500 "Internal Gateway Error")).
Proof.
  intros H Hq Hb. run_handler. rewrite H, Hq, Hb. simpl.
  destruct (PyStr.truthy q); reflexivity.
Qed.

Lemma gateway_proxy_parsed_raises_500 q :
  contains service services = true ->
  url_query request = Query q ->
  outcome (run (gateway_proxy services service path request) net)
  = Raise (HTTPException 500 "Internal Gateway Error").
Proof.
  unfold contains. destruct (get service services) as [u|] eqn:H;
    [intros _ | discriminate].
  intros Hq. destruct (body request) as [b|] eqn:Hb.
  - now rewrite (gateway_proxy_registered u q b H Hq Hb).
  - now rewrite (gateway_proxy_disconnected u q H Hq Hb).
Qed.

(** The four ways [gateway_proxy] ends: it always raises, builds at most
    one call, and addresses it to the URL of the table. *)
Lemma gateway_proxy_cases :
  exists t e,
    run (gateway_proxy services service path request) net = (t, Raise e)
    /\ ((e = HTTPException 404 "Service not found"
         /\ get service services = None /\ t = [])
        \/ (e = HTTPException 500 "Internal Gateway Error"
            /\ contains service services = true
            /\ exists q, url_query request = Query q)
        \/ (e = ValueError /\ contains service services = true
            /\ url_query request = InvalidURL /\ t = []))
    /\ exchanges t = []
    /\ reraised t = []
    /\ (length (calls t) <= 1)%nat
    /\ (forall req, In req (calls t) ->
          exists service_url q,
            get service services = Some service_url
            /\ url_query request = Query q
            /\ u_url req = target_url_of service_url path q).
Proof.
  unfold contains.
  destruct (get service services) as [u|] eqn:H.
  - destruct (url_query request) as [q|] eqn:Hq.
    + destruct (body request) as [b|] eqn:Hb.
      * rewrite (gateway_proxy_registered u q b H Hq Hb).
        do 2 eexists. split; [reflexivity|].
        split; [right; left; repeat split; now exists q|].
        split; [reflexivity|]. split; [reflexivity|]. split; [simpl; lia|].
        simpl. intros req [<-|[]]. exists u, q. now repeat split.
      * rewrite (gateway_proxy_disconnected u q H Hq Hb).
        do 2 eexists. split; [reflexivity|].
        split; [right; left; repeat split; now exists q|].
        split; [reflexivity|]. split; [reflexivity|]. split; [simpl; lia|].
    simpl. intros req [].
    + rewrite (gateway_proxy_invalid_url u H Hq).
      do 2 eexists. split; [reflexivity|].
      split; [right; right; now repeat split|].
      split; [reflexivity|]. split; [reflexivity|]. split; [simpl; lia|].
    simpl. intros req [].
  - rewrite (gateway_proxy_unregistered H).
    do 2 eexists. split; [reflexivity|].
    split; [left; now repeat split|].
    split; [reflexivity|]. split; [reflexivity|]. split; [simpl; lia|].
    simpl. intros req [].
Qed.

Lemma gateway_proxy_cases_404 t :
  run (gateway_proxy services service path request) net
  = (t, Raise (HTTPException 404 "Service not found")) ->
  get service services = None.
Proof.
  destruct (get service services) as [u|] eqn:H; [|reflexivity].
  destruct (url_query request) as [q|] eqn:Hq.
  - destruct (body request) as [b|] eqn:Hb.
    + rewrite (gateway_proxy_registered u q b H Hq Hb). discriminate.
    + rewrite (gateway_proxy_disconnected u q H Hq Hb). discriminate.
  - rewrite (gateway_proxy_invalid_url u H Hq). discriminate.
Qed.

Lemma gateway_proxy_never_exchanges :
  exchanges (trace (run (gateway_proxy services service path request) net))
  = [].
Proof.
  destruct gateway_proxy_cases as (t & e & Hrun & _ & Hex & _).
  now rewrite Hrun.
Qed.

End GatewayProxy.

(** ** Path templates and the router *)
Module RoutingFacts.

Lemma split_at_first c a b :
  PyStr.has_char c a = false ->
  PyStr.split_at c (a ++ String c b) = Some (a, b).
Proof.
  induction a as [|d a IH]; simpl.
  - intros _. now rewrite Ascii.eqb_refl.
  - intros H. apply orb_false_elim in H. destruct H as [Hd Ha].
    rewrite Hd, (IH Ha). reflexivity.
Qed.

Lemma split_at_absent c s :
  PyStr.has_char c s = false -> PyStr.split_at c s = None.
Proof.
  induction s as [|d s IH]; simpl; [reflexivity|].
  intros H. apply orb_false_elim in H. destruct H as [Hd Hs].
  now rewrite Hd, (IH Hs).
Qed.

Lemma split_at_some c s a b :
  PyStr.split_at c s = Some (a, b) ->
  s = a ++ String c b /\ PyStr.has_char c a = false.
Proof.
  revert a. induction s as [|d s IH]; simpl; intros a; [discriminate|].
  destruct (Ascii.eqb_spec c d) as [->|Hne].
  - intros [= <- <-]. now split.
  - destruct (PyStr.split_at c s) as [[a' b']|]; [|discriminate].
    intros [= <- <-]. destruct (IH a' eq_refl) as [-> Ha]. simpl.
    split; [reflexivity|].
    destruct (Ascii.eqb_spec c d); [contradiction | exact Ha].
Qed.

Lemma dot_star_end_plain s :
  PyStr.has_char newline s = false -> dot_star_end s = Some s.
Proof.
  intros H. unfold dot_star_end. now rewrite split_at_absent.
Qed.

(** A path of the shape [/service/rest] matches the proxy template. *)
Lemma match_proxy_path_segments service rest :
  service <> "" ->
  PyStr.has_char slash service = false ->
  PyStr.has_char newline rest = false ->
  match_proxy_path ("/" ++ service ++ "/" ++ rest) = Some (service, rest).
Proof.
  intros Hne Hs Hr. unfold match_proxy_path. simpl.
  change (String "/" rest) with (String slash rest).
  rewrite (split_at_first slash service rest Hs).
  destruct service; [contradiction|]. simpl.
  now rewrite dot_star_end_plain.
Qed.

(** What the proxy template accepts, read backwards. *)
Lemma match_proxy_path_inv path service p :
  match_proxy_path path = Some (service, p) ->
  service <> "" /\ PyStr.has_char slash service = false /\
  exists tail, path = "/" ++ service ++ "/" ++ tail /\
               dot_star_end tail = Some p.
Proof.
  unfold match_proxy_path.
  destruct path as [|c path]; cbn [strip_prefix]; [discriminate|].
  destruct (Ascii.eqb_spec "/" c) as [<-|]; [|discriminate].
  destruct (PyStr.split_at slash path) as [[s tail]|] eqn:Hsplit;
    [|discriminate].
  destruct (PyStr.truthy s) eqn:Hs; [|discriminate].
  destruct (dot_star_end tail) as [p'|] eqn:Hd; [|discriminate].
  intros [= <- <-].
  apply split_at_some in Hsplit. destruct Hsplit as [-> Hno].
  repeat split.
  - intros ->. discriminate.
  - exact Hno.
  - exists tail. split; [reflexivity | exact Hd].
Qed.

Lemma strip_prefix_some p s r : strip_prefix p s = Some r -> s = p ++ r.
Proof.
  revert s. induction p as [|a p IH]; intros s; simpl.
  - now intros [= ->].
  - destruct s as [|b s]; [discriminate|].
    destruct (Ascii.eqb_spec a b) as [->|]; [|discriminate].
    intros H. now rewrite (IH s H).
Qed.

Lemma match_literal_inv literal path :
  match_literal literal path = true ->
  path = literal \/ path = literal ++ String newline "".
Proof.
  unfold match_literal.
  destruct (strip_prefix literal path) as [r|] eqn:H; [|discriminate].
  apply strip_prefix_some in H. subst path.
  destruct r as [|c [|c' r]]; simpl; try discriminate.
  - intros _. left. clear. induction literal; simpl; congruence.
  - destruct (Ascii.eqb_spec c newline) as [->|]; [|discriminate].
    intros _. now right.
Qed.

(** No literal template takes a path that the proxy template takes. *)
Lemma proxy_path_not_literal path service p :
  match_proxy_path path = Some (service, p) ->
  match_literal "/openapi.json" path = false /\
  match_literal "/" path = false /\
  match_literal "/health" path = false.
Proof.
  intros H.
  repeat split;
    match goal with
    | |- match_literal ?l path = false =>
        destruct (match_literal l path) eqn:Hl; [|reflexivity];
        apply match_literal_inv in Hl; destruct Hl as [-> | ->];
        discriminate H
    end.
Qed.

(** The router hands a request to [gateway_proxy] exactly when its path
    matches the template and its method is one of the five listed. *)
Lemma routed_to_proxy_iff m path service p :
  route_request m path = ToEndpoint (GatewayProxy service p) <->
  match_proxy_path path = Some (service, p) /\
  PyStr.mem m (route_methods ProxyRoute) = true.
Proof.
  unfold route_request, routes, first_full, matches, route_path.
  split.
  - destruct (match_literal "/openapi.json" path);
      [destruct (PyStr.mem m (route_methods OpenAPIRoute)); [discriminate|]|];
      (destruct (match_literal "/" path);
       [destruct (PyStr.mem m (route_methods RootRoute)); [discriminate|]|]);
      (destruct (match_literal "/health" path);
       [destruct (PyStr.mem m (route_methods HealthRoute)); [discriminate|]|]);
      (destruct (match_proxy_path path) as [[s' p']|];
       [destruct (PyStr.mem m (route_methods ProxyRoute)) eqn:Hm|]);
      intros Hr;
      try (injection Hr as -> ->; now split);
      repeat match type of Hr with
             | (if ?c then _ else _) = _ => destruct c
             end; discriminate Hr.
  - intros [Hp Hm].
    destruct (proxy_path_not_literal path service p Hp) as (H1 & H2 & H3).
    now rewrite H1, H2, H3, Hp, Hm.
Qed.

(** A path for the proxy with any other method is answered 405. *)
Lemma proxy_path_other_method m path service p :
  match_proxy_path path = Some (service, p) ->
  PyStr.mem m (route_methods ProxyRoute) = false ->
  route_request m path = MethodNotAllowed.
Proof.
  intros Hp Hm.
  destruct (proxy_path_not_literal path service p Hp) as (H1 & H2 & H3).
  unfold route_request, routes, first_full, any_match, matches, route_path.
  now rewrite H1, H2, H3, Hp, Hm.
Qed.

End RoutingFacts.

Import RoutingFacts.

(** ** The application around [gateway_proxy] *)
Section App.

Variable services : dict string.
Variable request : Request.
Variable net : network.

Ltac run_app :=
  unfold run, app_on, server_error_middleware, log_requests,
    exception_middleware, router, call_endpoint, try_except, bind, emit,
    raise, ret.

(** An [HTTPException] raised by [gateway_proxy] reaches the caller as a
    response with its status, between the two records of the middleware. *)
Lemma app_proxy_raises service path t st d :
  route_request (method request) (url_path request)
  = ToEndpoint (GatewayProxy service path) ->
  run (gateway_proxy services service path request) net
  = (t, Raise (HTTPException st d)) ->
  run (app_on services request) net
  = ((Logged (LogRequest (method request) (url_path request)
                (query_string request)) :: t ++ [Logged (LogStatus st)])%list,
     Return (JSONBody st (JDict [("detail", JStr d)]) [])).
Proof.
  intros Hr Hg. run_app. rewrite Hr. unfold run in Hg. rewrite Hg. simpl.
  now rewrite app_nil_r.
Qed.

(** The [ValueError] of line 55 passes the exception handlers and the
    middleware, which writes no status record; the caller gets the plain
    500 and the exception is raised on. *)
Lemma app_proxy_value_error service path t :
  route_request (method request) (url_path request)
  = ToEndpoint (GatewayProxy service path) ->
  run (gateway_proxy services service path request) net
  = (t, Raise ValueError) ->
  run (app_on services request) net
  = ((Logged (LogRequest (method request) (url_path request)
                (query_string request)) :: t ++ [Reraised ValueError])%list,
     Return (PlainText 500 "Internal Server Error")).
Proof.
  intros Hr Hg. run_app. rewrite Hr. unfold run in Hg. rewrite Hg. simpl.
  now rewrite app_nil_r.
Qed.

Lemma app_method_not_allowed :
  route_request (method request) (url_path request) = MethodNotAllowed ->
  run (app_on services request) net
  = ([ Logged (LogRequest (method request) (url_path request)
                 (query_string request));
       Logged (LogStatus 405) ],
     Return (JSONBody 405 (JDict [("detail", JStr "Method Not Allowed")]) [])).
Proof.
  intros Hr. run_app. now rewrite Hr.
Qed.

Lemma calls_app (t t' : list event) :
  calls (t ++ t') = (calls t ++ calls t')%list.
Proof.
  induction t as [|[l|r|r|e] t IH]; simpl;
    [reflexivity | exact IH | | exact IH | exact IH].
  now rewrite IH.
Qed.

Lemma exchanges_app (t t' : list event) :
  exchanges (t ++ t') = (exchanges t ++ exchanges t')%list.
Proof.
  induction t as [|[l|r|r|e] t IH]; simpl;
    [reflexivity | exact IH | exact IH | | exact IH].
  now rewrite IH.
Qed.

Lemma reraised_app (t t' : list event) :
  reraised (t ++ t') = (reraised t ++ reraised t')%list.
Proof.
  induction t as [|[l|r|r|e] t IH]; simpl;
    [reflexivity | exact IH | exact IH | exact IH |].
  now rewrite IH.
Qed.

(** A request handed to [gateway_proxy]: the response, and the trace
    around the trace [t] of the handler. *)
Lemma app_proxy_cases service path :
  route_request (method request) (url_path request)
  = ToEndpoint (GatewayProxy service path) ->
  exists t e r last,
    run (gateway_proxy services service path request) net = (t, Raise e)
    /\ run (app_on services request) net
       = ((Logged (LogRequest (method request) (url_path request)
                     (query_string request)) :: t ++ [last])%list,
          Return r)
    /\ ((e = HTTPException 404 "Service not found"
         /\ r = JSONBody 404 (JDict [("detail", JStr "Service not found")]) []
         /\ last = Logged (LogStatus 404))
        \/ (e = HTTPException 500 "Internal Gateway Error"
            /\ r = JSONBody 500
                     (JDict [("detail", JStr "Internal Gateway Error")]) []
            /\ last = Logged (LogStatus 500))
        \/ (e = ValueError /\ url_query request = InvalidURL /\ t = []
            /\ contains service services = true
            /\ r = PlainText 500 "Internal Server Error"
            /\ last = Reraised ValueError)).
Proof.
  intros Hr.
  destruct (gateway_proxy_cases services service path request net)
    as (t & e & Hg & [(-> & _ & _)|[(-> & _ & _)|(-> & Hc & Hq & ->)]] & _).
  - do 4 eexists. split; [exact Hg|].
    split; [exact (app_proxy_raises _ _ _ _ _ Hr Hg)|]. left. now repeat split.
  - do 4 eexists. split; [exact Hg|].
    split; [exact (app_proxy_raises _ _ _ _ _ Hr Hg)|].
    right. left. now repeat split.
  - do 4 eexists. split; [exact Hg|].
    split; [exact (app_proxy_value_error _ _ _ Hr Hg)|].
    right. right. now repeat split.
Qed.

End App.

Lemma append_assoc (a b c : string) : (a ++ b) ++ c = a ++ (b ++ c).
Proof.
  induction a as [|x a IH]; simpl; [reflexivity | now rewrite IH].
Qed.

Lemma prefix_append (a b : string) : String.prefix a (a ++ b) = true.
Proof.
  induction a as [|c a IH]; simpl.
  - now destruct b.
  - destruct (ascii_dec c c); [exact IH | contradiction].
Qed.

Lemma has_char_append c (a b : string) :
  PyStr.has_char c (a ++ b) = PyStr.has_char c a || PyStr.has_char c b.
Proof.
  induction a as [|d a IH]; simpl; [reflexivity|].
  now rewrite IH, orb_assoc.
Qed.

(** A query appended behind a question mark is the query component, when
    nothing before it opens a query or a fragment. *)
Lemma query_component_appended (a q : string) :
  PyStr.has_char "?" a = false ->
  PyStr.has_char "#" a = false ->
  PyStr.has_char "#" q = false ->
  query_component (a ++ "?" ++ q) = q.
Proof.
  intros Hq Hf Hqf. unfold query_component, before_char.
  rewrite (split_at_absent "#" (a ++ "?" ++ q)).
  - change ("?" ++ q) with (String "?" q).
    now rewrite (split_at_first "?" a q Hq).
  - rewrite has_char_append, Hf. simpl. exact Hqf.
Qed.

Lemma prefix_target_url service_url path query :
  String.prefix service_url (target_url_of service_url path query) = true.
Proof.
  unfold target_url_of.
  destruct (PyStr.truthy query).
  - rewrite append_assoc. apply prefix_append.
  - apply prefix_append.
Qed.

(** ** [health_check], run *)
Section HealthCheck.

Variable net : network.
Variable client : AsyncClient.

Lemma probe_service_turn item per :
  get (fst item) per = None ->
  run (probe_service client item (status_doc per)) net
  = (probe_trace net item,
     Return (status_doc (per ++ [status_entry net item]))).
Proof.
  destruct item as [name url]. intros Hfresh. simpl in Hfresh.
  unfold run, probe_service, client_get, client_request, await,
    try_except, bind, emit, ret, raise, probe_trace, status_entry,
    probe_status,
    probe, status_doc, set_service_status.
  cbn [fst snd get String.eqb].
  simpl.
  destruct (net _) as [r|f]; simpl; now rewrite (set_fresh _ _ _ Hfresh).
Qed.

Lemma health_loop (services : dict string) :
  forall per,
    NoDup (keys per ++ keys services) ->
    run (for_each services (status_doc per) (probe_service client)) net
    = (flat_map (probe_trace net) services,
       Return (status_doc (per ++ map (status_entry net) services))).
Proof.
  induction services as [|item services IH]; intros per Hnd.
  - simpl. now rewrite app_nil_r.
  - assert (Hfresh : get (fst item) per = None).
    { apply get_none_not_in. intros Hin.
      apply NoDup_remove_2 in Hnd. apply Hnd. apply in_or_app. now left. }
    cbn [for_each]. unfold run, bind in *.
    pose proof (probe_service_turn item per Hfresh) as Hturn.
    unfold run in Hturn. rewrite Hturn.
    rewrite IH.
    + cbn [flat_map map]. now rewrite <- app_assoc.
    + unfold keys in *. rewrite map_app, <- app_assoc. exact Hnd.
Qed.

Lemma exchanges_turns (services : dict string) :
  exchanges (flat_map (probe_trace net) services)
  = map probe (map snd services).
Proof.
  induction services as [|item services IH]; [reflexivity|].
  cbn [flat_map map]. rewrite exchanges_app, IH. unfold probe_trace.
  cbn [exchanges]. destruct (net _); reflexivity.
Qed.

Lemma get_entry (services : dict string) name url :
  wf services -> In (name, url) services ->
  get name (map (status_entry net) services)
  = Some (JStr (probe_status net url)).
Proof.
  unfold wf, keys.
  induction services as [|[k u] services IH]; simpl; [intros _ []|].
  intros Hnd [Heq|Hin].
  - injection Heq as -> ->. now rewrite String.eqb_refl.
  - inversion Hnd as [|? ? Hnotin Hnd']; subst.
    destruct (String.eqb_spec name k) as [->|Hne].
    + exfalso. apply Hnotin. change k with (fst (k, url)). now apply in_map.
    + now apply IH.
Qed.

End HealthCheck.

Lemma health_check_trace (services : dict string) (net : network) :
  wf services ->
  run (health_check services) net
  = (flat_map (probe_trace net) services,
     Return (status_doc (map (status_entry net) services))).
Proof.
  intros Hwf. unfold health_check, async_with_client.
  now rewrite (health_loop net _ services []) by exact Hwf.
Qed.

Lemma SERVICES_wf : wf SERVICES.
Proof.
  unfold wf, keys, SERVICES. simpl.
  repeat constructor; simpl; intuition discriminate.
Qed.

(** * The claims *)

Import Scenario.

(** C1.  For a service that is registered, a request the router hands to
    [gateway_proxy] is answered with status 500 whatever the network does,
    and nothing is ever sent upstream: the httpx call is built and not
    awaited.  When [request.url] parses, the handler ends in the 500 of its
    generic [except] clause; when moreover the body could be read, the call
    was built once and the error logged is the missing attribute [text] of
    the coroutine object.  When [request.url] does not parse, line 55 raises
    before the [try] and the 500 is the one the framework answers. *)
Theorem C1_registered_service_answers_500
  (services : dict string) (service path : string) (request : Request)
  (net : network) :
  contains service services = true ->
  let o := run (gateway_proxy services service path request) net in
  exchanges (trace o) = []
  /\ (route_request (method request) (url_path request)
      = ToEndpoint (GatewayProxy service path) ->
      response_status (run (app_on services request) net) = Some 500
      /\ exchanges (trace (run (app_on services request) net)) = [])
  /\ (forall q, url_query request = Query q ->
        outcome o = Raise (HTTPException 500 "Internal Gateway Error")
        /\ (forall b, body request = BodyBytes b ->
              (exists req, calls (trace o) = [req]) /\
              In (Logged (LogErrorOccurred
                            (AttributeError "coroutine" "text")))
                 (trace o)))
  /\ (url_query request = InvalidURL -> o = ([], Raise ValueError)).
Proof.
  intros Hc o. subst o.
  split; [apply gateway_proxy_never_exchanges|].
  split; [|split].
  - intros Hr.
    destruct (app_proxy_cases services request net service path Hr)
      as (t & e & r & last & Hg & Happ & Hcase).
    pose proof (gateway_proxy_never_exchanges services service path request
                  net) as Hex.
    rewrite Hg in Hex. cbn [trace fst] in Hex.
    rewrite Happ. unfold response_status. cbn [trace outcome fst snd].
    cbn [exchanges]. rewrite exchanges_app, Hex.
    destruct Hcase as [(-> & _ & _)|[(_ & -> & ->)|(_ & _ & _ & _ & -> & ->)]].
    + unfold contains in Hc.
      rewrite (gateway_proxy_cases_404 services service path request net t Hg)
        in Hc. discriminate.
    + now split.
    + now split.
  - intros q Hq.
    split; [now apply gateway_proxy_parsed_raises_500 with (q := q)|].
    unfold contains in Hc.
    destruct (get service services) as [u|] eqn:H; [clear Hc | discriminate].
    intros b Hb. rewrite (gateway_proxy_registered _ _ _ _ net u q b H Hq Hb).
    simpl. split; [eexists; reflexivity | tauto].
  - intros Hq. unfold contains in Hc.
    destruct (get service services) as [u|] eqn:H; [clear Hc | discriminate].
    exact (gateway_proxy_invalid_url _ _ _ _ net u H Hq).
Qed.

Lemma C1_witness :
  contains "users" SERVICES = true /\
  response_status (run (app get_user) all_up) = Some 500 /\
  response_status (run (app get_user_bracket_host) all_up) = Some 500.
Proof.
  split; [reflexivity|]. split.
  - exact (proj1 (proj1 (proj2
             (C1_registered_service_answers_500 SERVICES "users" "1" get_user
                all_up eq_refl)) eq_refl)).
  - exact (proj1 (proj1 (proj2
             (C1_registered_service_answers_500 SERVICES "users" "1"
                get_user_bracket_host all_up eq_refl)) eq_refl)).
Defined.

(** C2, as the program has it.  A first segment that names no registered
    service gives 404.  The [except] clauses of [gateway_proxy] turn a
    timeout into 504, a connect error into 503 and every other exception
    into 500; the decode error of a response body that is not JSON is one of
    the others, so it gives 500, and no clause gives 502. *)
Theorem C2_failure_status_mapping
  (services : dict string) (service path : string) (request : Request)
  (net : network) :
  (get service services = None ->
   outcome (run (gateway_proxy services service path request) net)
   = Raise (HTTPException 404 "Service not found")
   /\ (route_request (method request) (url_path request)
       = ToEndpoint (GatewayProxy service path) ->
       response_status (run (app_on services request) net) = Some 404))
  /\ (forall e, exists d,
        outcome (run (gateway_proxy_except e) net)
        = Raise (HTTPException
                   match e with
                   | TimeoutException => 504
                   | ConnectError => 503
                   | _ => 500
                   end d))
  /\ (forall r, PyStr.truthy (r_text r) = true -> r_json r = None ->
        outcome (run (try_except (relay (Response r)) gateway_proxy_except)
                   net)
        = Raise (HTTPException 500 "Internal Gateway Error")).
Proof.
  split; [|split].
  - intros H. split.
    + now rewrite (gateway_proxy_unregistered _ _ _ _ net H).
    + intros Hr.
      now rewrite (app_proxy_raises _ _ net _ _ _ _ _ Hr
                     (gateway_proxy_unregistered _ _ _ _ net H)).
  - intros e. destruct e; eexists; reflexivity.
  - intros r Ht Hr.
    unfold run, try_except, relay, bind, getattr_text, call_json, ret.
    now rewrite Ht, Hr.
Qed.

Lemma C2_witness :
  get "payments" SERVICES = None /\
  response_status (run (app get_unknown) all_up) = Some 404.
Proof.
  split; [reflexivity|].
  exact (proj2 (proj1
           (C2_failure_status_mapping SERVICES "payments" "7" get_unknown
              all_up) eq_refl) eq_refl).
Defined.

(** C2, as the specification words it, fails: with every backend answering
    a body that is not JSON, a request for a registered service is not
    answered 502, and neither is the decode error where a response is
    relayed. *)
Lemma C2_counterexample :
  response_status (run (app get_user) all_malformed) <> Some 502
  /\ response_status (run (app get_user) all_malformed) = Some 500
  /\ outcome (run (try_except (relay (Response malformed))
                     gateway_proxy_except) all_malformed)
     = Raise (HTTPException 500 "Internal Gateway Error").
Proof.
  split; [vm_compute; discriminate|]. split; reflexivity.
Qed.

(** C5, as the program has it.  For a registered service and a request
    whose [request.url.query] is a non-empty text, the target URL the
    gateway builds is the service URL, a slash, the path and then a question
    mark followed by that text unchanged; this is the URL logged, and the URL
    of the httpx call when the body could be read.  When neither the service
    URL nor the path holds a question mark or a number sign, that text is
    the query component of the target URL. *)
Theorem C5_query_string_preserved
  (services : dict string) (service path service_url q : string)
  (request : Request) (net : network) :
  get service services = Some service_url ->
  url_query request = Query q ->
  q <> "" ->
  let o := run (gateway_proxy services service path request) net in
  let target_url := (service_url ++ "/" ++ path) ++ "?" ++ q in
  In (Logged (LogRedirecting target_url)) (trace o)
  /\ (forall b, body request = BodyBytes b ->
        map u_url (calls (trace o)) = [target_url])
  /\ (PyStr.has_char "?" (service_url ++ "/" ++ path) = false ->
      PyStr.has_char "#" (service_url ++ "/" ++ path) = false ->
      PyStr.has_char "#" q = false ->
      query_component target_url = q).
Proof.
  intros H Hq Hne o target_url. subst o target_url.
  assert (Ht : target_url_of service_url path q
               = (service_url ++ "/" ++ path) ++ "?" ++ q).
  { unfold target_url_of. destruct q; [contradiction | reflexivity]. }
  rewrite <- Ht. split; [|split].
  - destruct (body request) as [b|] eqn:Hb.
    + rewrite (gateway_proxy_registered _ _ _ _ net service_url q b H Hq Hb).
      now left.
    + rewrite (gateway_proxy_disconnected _ _ _ _ net service_url q H Hq Hb).
      now left.
  - intros b Hb.
    now rewrite (gateway_proxy_registered _ _ _ _ net service_url q b H Hq Hb).
  - intros Hno_q Hno_f Hq_f. rewrite Ht.
    apply query_component_appended; assumption.
Qed.

Lemma C5_witness :
  get "users" SERVICES = Some "http://localhost:8001" /\
  url_query get_user_search = Query "name=ann&page=2" /\
  "name=ann&page=2" <> "" /\
  map u_url (calls (trace (run (gateway_proxy SERVICES "users" "search"
                                  get_user_search) all_up)))
  = ["http://localhost:8001/search?name=ann&page=2"] /\
  query_component "http://localhost:8001/search?name=ann&page=2"
  = "name=ann&page=2".
Proof.
  split; [reflexivity|]. split; [reflexivity|]. split; [discriminate|].
  pose proof (C5_query_string_preserved SERVICES "users" "search"
                "http://localhost:8001" "name=ann&page=2" get_user_search
                all_up eq_refl eq_refl
                (fun H => match H with eq_refl => I end)) as (_ & Hu & Hc).
  split; [exact (Hu "" eq_refl) | exact (Hc eq_refl eq_refl eq_refl)].
Defined.

(** C5, as the specification words it, fails: a GET for the users service
    with the query string [x=1] and the Host header [gateway:8000#].  The URL
    Starlette assembles is [http://gateway:8000#/users/1?x=1], whose query
    component is empty, so [request.url.query] is empty and the gateway
    builds its call to [http://localhost:8001/1]: the query string of the
    request is not in it. *)
Lemma C5_counterexample :
  query_string get_user_fragment_host = "x=1"
  /\ url_query get_user_fragment_host
     = Query (query_component "http://gateway:8000#/users/1?x=1")
  /\ map u_url (calls (trace (run (app get_user_fragment_host) all_up)))
     = ["http://localhost:8001/1"]
  /\ map (fun c => query_component (u_url c))
       (calls (trace (run (app get_user_fragment_host) all_up)))
     <> [query_string get_user_fragment_host].
Proof.
  split; [reflexivity|]. split; [reflexivity|]. split; [reflexivity|].
  vm_compute. discriminate.
Qed.

(** C6, evaluated.  A POST to the orders service while every backend times
    out: the call is built once and never sent, so no timeout can occur, and
    the caller is answered 500 where the claim expects 504. *)
Theorem C6_post_timeout_answered_500 :
  response_status (run (app post_order) all_timing_out) = Some 500
  /\ map u_url (calls (trace (run (app post_order) all_timing_out)))
     = ["http://localhost:8002/checkout"]
  /\ exchanges (trace (run (app post_order) all_timing_out)) = []
  /\ In (Logged (LogErrorOccurred (AttributeError "coroutine" "text")))
        (trace (run (app post_order) all_timing_out)).
Proof.
  repeat split; try reflexivity. vm_compute. tauto.
Qed.

(** C7, as the program has it.  There is no retry and one URL per service:
    a request the router hands to [gateway_proxy], of any method, is
    answered with one response, and the run builds at most one httpx call,
    addressed to the URL the table gives for the service. *)
Theorem C7_single_call_no_retry
  (services : dict string) (service path : string) (request : Request)
  (net : network) :
  route_request (method request) (url_path request)
  = ToEndpoint (GatewayProxy service path) ->
  let o := run (app_on services request) net in
  (exists r, outcome o = Return r)
  /\ (length (calls (trace o)) <= 1)%nat
  /\ ~ retried_elsewhere (trace o)
  /\ (forall req, In req (calls (trace o)) ->
        exists service_url,
          get service services = Some service_url /\
          String.prefix service_url (u_url req) = true).
Proof.
  intros Hr o. subst o.
  destruct (app_proxy_cases services request net service path Hr)
    as (t & e & r & last & Hg & Happ & Hcase).
  destruct (gateway_proxy_cases services service path request net)
    as (t' & e' & Hg' & _ & _ & _ & Hlen & Hurl).
  rewrite Hg in Hg'. injection Hg' as <- <-.
  assert (Hc : calls (trace (run (app_on services request) net)) = calls t).
  { rewrite Happ. cbn [trace fst calls]. rewrite calls_app.
    destruct Hcase as [(_ & _ & ->)|[(_ & _ & ->)|(_ & _ & _ & _ & _ & ->)]];
      cbn [calls]; now rewrite app_nil_r. }
  unfold retried_elsewhere. rewrite Hc.
  split; [rewrite Happ; eexists; reflexivity|].
  split; [exact Hlen|]. split.
  - intros (r1 & r2 & H1 & H2 & Hne).
    destruct (calls t) as [|c [|c' l]]; simpl in Hlen, H1, H2;
      [destruct H1 | | lia].
    destruct H1 as [<-|[]]. destruct H2 as [<-|[]]. now apply Hne.
  - intros req Hin. destruct (Hurl req Hin) as (u & q & Hu & _ & ->).
    exists u. split; [exact Hu | apply prefix_target_url].
Qed.

Lemma C7_witness :
  route_request (method get_user) (url_path get_user)
  = ToEndpoint (GatewayProxy "users" "1") /\
  (length (calls (trace (run (app get_user) users_unreachable))) <= 1)%nat.
Proof.
  split; [reflexivity|].
  exact (proj1 (proj2
           (C7_single_call_no_retry SERVICES "users" "1" get_user
              users_unreachable eq_refl))).
Defined.

(** C7, as the specification words it, fails: a GET for the users service
    while its address refuses connections and every other address answers.
    The run builds its one call to the address of the table and none to
    another one, and the caller is answered 500. *)
Lemma C7_counterexample :
  ~ retried_elsewhere (trace (run (app get_user) users_unreachable))
  /\ map u_url (calls (trace (run (app get_user) users_unreachable)))
     = ["http://localhost:8001/1"]
  /\ response_status (run (app get_user) users_unreachable) = Some 500.
Proof.
  split; [|split; reflexivity].
  intros (r1 & r2 & H1 & H2 & Hne).
  change (calls (trace (run (app get_user) users_unreachable)))
    with [mkUpstream "GET" "http://localhost:8001/1" [] ""] in H1, H2.
  destruct H1 as [<-|[]]. destruct H2 as [<-|[]]. now apply Hne.
Qed.

(** C3, as the program has it.  Resolution is an exact lookup of the first
    path segment in the table, not a longest-prefix match: a path
    [/service/rest] resolves to the URL the table gives for [service], with
    [/rest] as the path sent on, and to nothing when [service] is no key.
    It is the resolution the application performs: for such a request with
    a listed method, a readable body and an empty query, the one httpx call
    goes to the resolved URL followed by the resolved path.  Whatever
    resolves does so through a key that is the first segment of the path and
    holds no slash. *)
Theorem C3_first_segment_lookup
  (services : dict string) (service rest : string) :
  service <> "" ->
  PyStr.has_char slash service = false ->
  PyStr.has_char newline rest = false ->
  resolve services ("/" ++ service ++ "/" ++ rest)
  = match get service services with
    | Some service_url => Some (service_url, "/" ++ rest)
    | None => None
    end
  /\ (forall request net b,
        url_path request = "/" ++ service ++ "/" ++ rest ->
        PyStr.mem (method request) (route_methods ProxyRoute) = true ->
        url_query request = Query "" ->
        body request = BodyBytes b ->
        map u_url (calls (trace (run (app_on services request) net)))
        = match resolve services (url_path request) with
          | Some (service_url, p) => [service_url ++ p]
          | None => []
          end)
  /\ (forall path service_url p,
        resolve services path = Some (service_url, p) ->
        exists key tail,
          path = "/" ++ key ++ "/" ++ tail
          /\ PyStr.has_char slash key = false
          /\ get key services = Some service_url).
Proof.
  intros Hne Hs Hr.
  assert (Hkey : forall path service_url p,
             resolve services path = Some (service_url, p) ->
             exists key tail,
               path = "/" ++ key ++ "/" ++ tail
               /\ PyStr.has_char slash key = false
               /\ get key services = Some service_url).
  { intros path0 u p. unfold resolve.
    destruct (match_proxy_path path0) as [[key q]|] eqn:Hm0; [|discriminate].
    destruct (get key services) as [u'|] eqn:Hg; [|discriminate].
    intros [= <- <-].
    destruct (match_proxy_path_inv path0 key q Hm0)
      as (_ & Hno & tail & -> & _).
    exists key, tail. now repeat split. }
  refine ((fun H => conj (proj1 H) (conj (proj2 H) Hkey)) _).
  pose proof (match_proxy_path_segments service rest Hne Hs Hr) as Hm.
  assert (Hres : resolve services ("/" ++ service ++ "/" ++ rest)
                 = match get service services with
                   | Some service_url => Some (service_url, "/" ++ rest)
                   | None => None
                   end).
  { unfold resolve. now rewrite Hm. }
  split; [exact Hres|].
  intros request net b Hp Hmeth Hq Hb. rewrite Hp, Hres.
  assert (Hroute : route_request (method request) (url_path request)
                   = ToEndpoint (GatewayProxy service rest)).
  { apply routed_to_proxy_iff. rewrite Hp. now split. }
  destruct (get service services) as [u|] eqn:Hg.
  - rewrite (app_proxy_raises _ _ net _ _ _ _ _ Hroute
               (gateway_proxy_registered _ _ _ _ net u "" b Hg Hq Hb)).
    reflexivity.
  - rewrite (app_proxy_raises _ _ net _ _ _ _ _ Hroute
               (gateway_proxy_unregistered _ _ _ _ net Hg)).
    reflexivity.
Qed.

Lemma C3_witness :
  "users" <> "" /\
  PyStr.has_char slash "users" = false /\
  PyStr.has_char newline "admin/42" = false /\
  resolve SERVICES "/users/admin/42"
  = Some ("http://localhost:8001", "/admin/42").
Proof.
  split; [discriminate|]. split; [reflexivity|]. split; [reflexivity|].
  exact (proj1 (C3_first_segment_lookup SERVICES "users" "admin/42"
                  (fun H => match H with eq_refl => I end)
                  eq_refl eq_refl)).
Defined.

(** C3, as the specification words it, fails on its own scenario.  A
    longest-prefix match sends [/users/admin/42] to users-admin-svc with
    path [/42].  The program, given the two routes as its table, sends it to
    users-svc with path [/admin/42]; given the prefixes with their leading
    slash as keys it finds no service at all. *)
Lemma C3_counterexample :
  Spec.longest_prefix_resolve
    [("/users", "users-svc"); ("/users/admin", "users-admin-svc")]
    "/users/admin/42"
  = Some ("users-admin-svc", "/42")
  /\ resolve admin_table "/users/admin/42" = Some ("users-svc", "/admin/42")
  /\ resolve admin_table_slashed "/users/admin/42" = None
  /\ map u_url (calls (trace (run
       (app_on admin_table
          (mkRequest "GET" "/users/admin/42" "" (Query "") [] (BodyBytes "")))
       all_up)))
     = ["users-svc/admin/42"]
  /\ resolve admin_table "/users/admin/42"
     <> Spec.longest_prefix_resolve
          [("/users", "users-svc"); ("/users/admin", "users-admin-svc")]
          "/users/admin/42".
Proof.
  repeat split; try reflexivity. vm_compute. discriminate.
Qed.

(** C4, as the program has it.  The headers given to the httpx call are
    the request headers except those whose lower-cased name is [host] or
    [connection]; the seven other hop-by-hop headers are passed on.  For
    every name the call carries the last value the request gave it, and when
    no name occurs twice it carries the remaining headers as they came, in
    order.  Method and body are passed on unchanged.  The call is built when
    the service is registered, [request.url] parses and the body could be
    read. *)
Theorem C4_headers_passed_on
  (services : dict string) (service path service_url : string)
  (request : Request) (net : network) :
  get service services = Some service_url ->
  let o := run (gateway_proxy services service path request) net in
  (forall req, In req (calls (trace o)) ->
     (forall k,
        get k (u_headers req)
        = if PyStr.mem (PyStr.lower k) ["host"; "connection"] then None
          else last_value k (headers request))
     /\ (NoDup (keys (headers request)) ->
         u_headers req = filter forwarded (headers request))
     /\ u_method req = method request
     /\ body request = BodyBytes (u_content req))
  /\ (forall q b,
        url_query request = Query q -> body request = BodyBytes b ->
        exists req, calls (trace o) = [req]).
Proof.
  intros Hg o. subst o. split.
  - intros req Hin.
    destruct (url_query request) as [q|] eqn:Hq;
      [|rewrite (gateway_proxy_invalid_url _ _ _ _ net service_url Hg Hq)
          in Hin; destruct Hin].
    destruct (body request) as [b|] eqn:Hb;
      [|rewrite (gateway_proxy_disconnected _ _ _ _ net service_url q Hg Hq
                   Hb) in Hin; destruct Hin].
    rewrite (gateway_proxy_registered _ _ _ _ net service_url q b Hg Hq Hb)
      in Hin.
    cbn [trace fst calls In] in Hin. destruct Hin as [<-|[]].
    cbn [u_headers u_method u_content].
    split; [|split; [|split; reflexivity]].
    + intros k. rewrite get_of_items, <- filter_rev. unfold last_value.
      change forwarded
        with (fun kv : string * string =>
                (fun n => negb (PyStr.mem (PyStr.lower n)
                                  ["host"; "connection"])) (fst kv)).
      rewrite get_filter_key.
      now destruct (PyStr.mem (PyStr.lower k) ["host"; "connection"]).
    + intros Hnd. apply of_items_distinct. now apply keys_filter_NoDup.
  - intros q b Hq Hb.
    rewrite (gateway_proxy_registered _ _ _ _ net service_url q b Hg Hq Hb).
    eexists. reflexivity.
Qed.

Lemma C4_witness :
  get "users" SERVICES = Some "http://localhost:8001" /\
  url_query get_user_hop_by_hop = Query "" /\
  body get_user_hop_by_hop = BodyBytes "" /\
  exists req,
    calls (trace (run (gateway_proxy SERVICES "users" "1"
                         get_user_hop_by_hop) all_up)) = [req]
    /\ get "transfer-encoding" (u_headers req) = Some "chunked"
    /\ get "host" (u_headers req) = None.
Proof.
  split; [reflexivity|]. split; [reflexivity|]. split; [reflexivity|].
  destruct (C4_headers_passed_on SERVICES "users" "1"
              "http://localhost:8001" get_user_hop_by_hop all_up eq_refl)
    as (Hall & Hone).
  destruct (Hone "" "" eq_refl eq_refl) as (req & Hc).
  exists req. split; [exact Hc|].
  assert (Hin : In req (calls (trace (run (gateway_proxy SERVICES "users" "1"
                                            get_user_hop_by_hop) all_up))))
    by (rewrite Hc; now left).
  destruct (Hall req Hin) as (Hk & _).
  split; [exact (Hk "transfer-encoding") | exact (Hk "host")].
Defined.

(** C4, as the specification words it, fails: a request carrying
    [keep-alive] and [transfer-encoding] next to [host], [connection] and
    [accept].  The call keeps the first two, which the list of the
    specification removes. *)
Lemma C4_counterexample :
  map u_headers
    (calls (trace (run (app get_user_hop_by_hop) all_up)))
  = [[ ("keep-alive", "timeout=5"); ("transfer-encoding", "chunked");
       ("accept", "application/json") ]]
  /\ Spec.forward_headers (headers get_user_hop_by_hop)
     = [("accept", "application/json")]
  /\ map u_headers
       (calls (trace (run (app get_user_hop_by_hop) all_up)))
     <> [Spec.forward_headers (headers get_user_hop_by_hop)].
Proof.
  repeat split; try reflexivity. vm_compute. discriminate.
Qed.

(** C8, as the program has it.  The health endpoint returns the document
    [{"gateway": "healthy", "services": {name: status}}]: one entry per
    configured service, in the order of the table, whose value is the
    string "healthy" when the probe of the service was answered and
    "unhealthy" when it failed; the gateway field is always "healthy" and
    there are no counts.  A GET on [/health] is answered 200 with this
    document. *)
Theorem C8_health_document (services : dict string) (net : network) :
  wf services ->
  let per :=
    map (fun item => (fst item, JStr (probe_status net (snd item))))
      services in
  let doc := JDict [ ("gateway", JStr "healthy"); ("services", JDict per) ] in
  outcome (run (health_check services) net) = Return doc
  /\ (forall request,
        method request = "GET" -> url_path request = "/health" ->
        outcome (run (app_on services request) net)
        = Return (JSONBody 200 doc []))
  /\ keys per = keys services
  /\ (forall service_name service_url,
        In (service_name, service_url) services ->
        get service_name per = Some (JStr (probe_status net service_url))
        /\ (probe_status net service_url = "healthy"
            \/ probe_status net service_url = "unhealthy"))
  /\ exchanges (trace (run (health_check services) net))
     = map probe (map snd services).
Proof.
  intros Hwf per doc. subst per doc.
  pose proof (health_check_trace services net Hwf) as Hrun.
  split; [now rewrite Hrun|]. split; [|split; [|split]].
  - intros request Hm Hp.
    unfold run, app_on, server_error_middleware, log_requests,
      exception_middleware, router, try_except, bind, emit, raise, ret.
    rewrite Hm, Hp.
    change (route_request "GET" "/health") with (ToEndpoint HealthCheck).
    unfold call_endpoint, bind, ret. unfold run in Hrun. rewrite Hrun.
    reflexivity.
  - unfold keys. rewrite map_map. reflexivity.
  - intros name url Hin. split; [now apply (get_entry net)|].
    unfold probe_status. destruct (net (probe url)); tauto.
  - rewrite Hrun. apply exchanges_turns.
Qed.

Lemma C8_witness :
  wf SERVICES /\
  outcome (run (health_check SERVICES) users_unreachable)
  = Return (JDict [ ("gateway", JStr "healthy");
                    ("services",
                     JDict [ ("users", JStr "unhealthy");
                             ("orders", JStr "healthy");
                             ("products", JStr "healthy") ]) ]).
Proof.
  split; [exact SERVICES_wf|].
  exact (proj1 (C8_health_document SERVICES users_unreachable SERVICES_wf)).
Defined.

(** C8, as the specification words it, fails: with every backend up, the
    document answered on [/health] has no [gatewayStatus] and no
    [perService] field, and the entry of a service is the string "healthy",
    not a record of two counts. *)
Lemma C8_counterexample :
  exists doc per,
    outcome (run (app get_health) all_up) = Return (JSONBody 200 doc [])
    /\ Spec.aggregate_health_shape (keys SERVICES) doc = false
    /\ doc = JDict [ ("gateway", JStr "healthy"); ("services", JDict per) ]
    /\ get "users" per = Some (JStr "healthy")
    /\ Spec.is_count_record (JStr "healthy") = false.
Proof.
  do 2 eexists. repeat split; reflexivity.
Qed.

(** C9, as the program has it.  On the paths of the proxy template the
    router hands a request to [gateway_proxy] when its method is GET, POST,
    PUT, DELETE or PATCH, and only then; a request with any other method,
    HEAD and OPTIONS among them, is answered 405 and builds no httpx
    call. *)
Theorem C9_listed_methods_only (m path service p : string) :
  (route_request m path = ToEndpoint (GatewayProxy service p)
   <-> match_proxy_path path = Some (service, p)
       /\ PyStr.mem m ["GET"; "POST"; "PUT"; "DELETE"; "PATCH"] = true)
  /\ (match_proxy_path path = Some (service, p) ->
      PyStr.mem m ["GET"; "POST"; "PUT"; "DELETE"; "PATCH"] = false ->
      route_request m path = MethodNotAllowed
      /\ forall services request net,
           method request = m -> url_path request = path ->
           response_status (run (app_on services request) net) = Some 405
           /\ calls (trace (run (app_on services request) net)) = []).
Proof.
  split; [apply routed_to_proxy_iff|].
  intros Hp Hm.
  pose proof (proxy_path_other_method m path service p Hp Hm) as Hr.
  split; [exact Hr|].
  intros services request net Hmeth Hpath.
  rewrite <- Hmeth, <- Hpath in Hr.
  rewrite (app_method_not_allowed services request net Hr).
  split; reflexivity.
Qed.

Lemma C9_witness :
  match_proxy_path "/users/1" = Some ("users", "1") /\
  PyStr.mem "HEAD" ["GET"; "POST"; "PUT"; "DELETE"; "PATCH"] = false /\
  route_request "HEAD" "/users/1" = MethodNotAllowed /\
  response_status (run (app head_user) all_up) = Some 405.
Proof.
  split; [reflexivity|]. split; [reflexivity|].
  pose proof (proj2 (C9_listed_methods_only "HEAD" "/users/1" "users" "1")
                eq_refl eq_refl) as [Hr Hs].
  split; [exact Hr|].
  exact (proj1 (Hs SERVICES head_user all_up eq_refl eq_refl)).
Defined.

(** C9, as the specification words it, fails: HEAD and OPTIONS requests
    for a registered service are not handed to [gateway_proxy]; they are
    answered 405 and nothing is built for the backend. *)
Lemma C9_counterexample :
  route_request (method head_user) (url_path head_user)
  <> ToEndpoint (GatewayProxy "users" "1")
  /\ response_status (run (app head_user) all_up) = Some 405
  /\ calls (trace (run (app head_user) all_up)) = []
  /\ route_request (method options_user) (url_path options_user)
     <> ToEndpoint (GatewayProxy "users" "1")
  /\ response_status (run (app options_user) all_up) = Some 405.
Proof.
  repeat split; try reflexivity; vm_compute; discriminate.
Qed.

(** C10.  A service whose probe is answered is recorded as "healthy",
    whatever the status code of the answer. *)
Theorem C10_answered_probe_is_healthy
  (services : dict string) (net : network) (service_name service_url : string)
  (r : upstream_response) :
  wf services ->
  In (service_name, service_url) services ->
  net (probe service_url) = Replies r ->
  u_url (probe service_url) = service_url ++ "/health"
  /\ exists d per,
       outcome (run (health_check services) net) = Return (JDict d)
       /\ get "services" d = Some (JDict per)
       /\ get service_name per = Some (JStr "healthy").
Proof.
  intros Hwf Hin Hnet. split; [reflexivity|].
  rewrite (health_check_trace services net Hwf).
  do 2 eexists. split; [reflexivity|]. split; [reflexivity|].
  rewrite (get_entry net services service_name service_url Hwf Hin).
  unfold probe_status. now rewrite Hnet.
Qed.

Lemma C10_witness :
  wf SERVICES /\
  In ("orders", "http://localhost:8002") SERVICES /\
  all_answering_500 (probe "http://localhost:8002") = Replies failing_health /\
  r_status_code failing_health = 500 /\
  exists d per,
    outcome (run (health_check SERVICES) all_answering_500) = Return (JDict d)
    /\ get "services" d = Some (JDict per)
    /\ get "orders" per = Some (JStr "healthy").
Proof.
  split; [exact SERVICES_wf|].
  split; [simpl; tauto|]. split; [reflexivity|]. split; [reflexivity|].
  exact (proj2 (C10_answered_probe_is_healthy SERVICES all_answering_500
                  "orders" "http://localhost:8002" failing_health
                  SERVICES_wf (or_intror (or_introl eq_refl)) eq_refl)).
Defined.

(** * Further properties of gateway.py *)

(** ** More on dictionaries *)
Module PyDictMore.

Section More.
Context {V : Type}.
Implicit Types (d : dict V) (k : string) (v : V).

Lemma in_keys_get k d : In k (keys d) <-> get k d <> None.
Proof.
  split.
  - intros Hin Hnone. now apply get_none_not_in in Hnone.
  - intros Hsome. destruct (in_dec string_dec k (keys d)) as [Hin|Hnin];
      [exact Hin|]. exfalso. apply Hsome. now apply get_none_not_in.
Qed.

(** Assigning to a key that is present leaves the keys as they are. *)
Lemma keys_set_present k v d : get k d <> None -> keys (set k v d) = keys d.
Proof.
  induction d as [|[k' v'] d IH]; simpl; [congruence|].
  destruct (String.eqb_spec k k') as [->|Hne]; simpl; [reflexivity|].
  intros H. now rewrite IH.
Qed.

Lemma wf_set k v d : wf d -> wf (set k v d).
Proof.
  unfold wf. intros Hwf.
  destruct (get k d) as [v0|] eqn:Hg.
  - rewrite keys_set_present by congruence. exact Hwf.
  - rewrite keys_set_fresh by exact Hg.
    apply NoDup_app; [exact Hwf | repeat constructor; intros [] |].
    intros x Hx [<-|[]]. apply get_none_not_in in Hg. contradiction.
Qed.

Lemma wf_fold_set (items : list (string * V)) :
  forall acc, wf acc ->
    wf (fold_left (fun d kv => set (fst kv) (snd kv) d) items acc).
Proof.
  induction items as [|[k v] items IH]; intros acc Hwf; simpl;
    [exact Hwf|]. apply IH. now apply wf_set.
Qed.

(** A comprehension never holds a key twice. *)
Lemma wf_of_items (items : list (string * V)) : wf (of_items items).
Proof.
  apply wf_fold_set. constructor.
Qed.

Lemma keys_rev (items : list (string * V)) k :
  In k (keys (rev items)) <-> In k (keys items).
Proof.
  unfold keys. rewrite map_rev. symmetry. apply in_rev.
Qed.

(** Its keys are the names that occur in the pairs. *)
Lemma in_keys_of_items (items : list (string * V)) k :
  In k (keys (of_items items)) <-> In k (keys items).
Proof.
  rewrite in_keys_get, get_of_items, <- in_keys_get. apply keys_rev.
Qed.

Lemma in_keys_filter_key (p : string -> bool) (items : list (string * V)) k :
  In k (keys (filter (fun kv => p (fst kv)) items))
  <-> In k (keys items) /\ p k = true.
Proof.
  rewrite !in_keys_get, get_filter_key.
  destruct (p k); split.
  - intros H. now split.
  - now intros [H _].
  - intros H. exfalso. now apply H.
  - intros [_ H]. discriminate.
Qed.

End More.

End PyDictMore.

Import PyDictMore.

(** ** [health_check] over any table *)
Section HealthCheckAny.

Variable net : network.
Variable client : AsyncClient.

(** One turn of the loop assigns the entry of its item. *)
Lemma probe_service_run item per :
  run (probe_service client item (status_doc per)) net
  = (probe_trace net item,
     Return (status_doc
               (set (fst item) (JStr (probe_status net (snd item))) per))).
Proof.
  destruct item as [name url].
  unfold run, probe_service, client_get, client_request, await,
    try_except, bind, emit, ret, raise, probe_trace, probe_status,
    probe, status_doc, set_service_status.
  cbn [fst snd get String.eqb]. simpl.
  destruct (net _) as [r|f]; reflexivity.
Qed.

Lemma health_loop_any (services : dict string) :
  forall per,
    run (for_each services (status_doc per) (probe_service client)) net
    = (flat_map (probe_trace net) services,
       Return (status_doc
                 (fold_left
                    (fun d item =>
                       set (fst item) (JStr (probe_status net (snd item))) d)
                    services per))).
Proof.
  induction services as [|item services IH]; intros per; [reflexivity|].
  cbn [for_each fold_left flat_map]. unfold run, bind in *.
  pose proof (probe_service_run item per) as Hturn.
  unfold run in Hturn. rewrite Hturn, IH. reflexivity.
Qed.

Lemma calls_turns (services : dict string) :
  calls (flat_map (probe_trace net) services) = map probe (map snd services).
Proof.
  induction services as [|item services IH]; [reflexivity|].
  cbn [flat_map map]. rewrite calls_app, IH. unfold probe_trace.
  cbn [calls]. destruct (net _); reflexivity.
Qed.

(** The error records of the loop are those of the probes that failed. *)
Lemma not_alive_logged (services : dict string) name e :
  In (Logged (LogNotAlive name e)) (flat_map (probe_trace net) services)
  <-> exists url f,
        In (name, url) services /\ net (probe url) = Fails f
        /\ e = exn_of_failure f.
Proof.
  rewrite in_flat_map. split.
  - intros [[n u] [Hin Hev]]. unfold probe_trace in Hev. cbn [fst snd] in Hev.
    destruct Hev as [Hev|[Hev|Hev]]; try discriminate.
    destruct (net (probe u)) as [r|f] eqn:Hn; [destruct Hev|].
    destruct Hev as [Hev|[]]. injection Hev as -> <-.
    exists u, f. now repeat split.
  - intros (url & f & Hin & Hn & ->). exists (name, url).
    split; [exact Hin|]. unfold probe_trace. cbn [fst snd]. rewrite Hn.
    right. right. now left.
Qed.

End HealthCheckAny.

Lemma health_check_any (services : dict string) (net : network) :
  run (health_check services) net
  = (flat_map (probe_trace net) services,
     Return (status_doc
               (fold_left
                  (fun d item =>
                     set (fst item) (JStr (probe_status net (snd item))) d)
                  services []))).
Proof.
  unfold health_check, async_with_client. apply health_loop_any.
Qed.

(** ** [gateway_proxy] and the network *)
Lemma gateway_proxy_ignores_network
  (services : dict string) (service path : string) (request : Request)
  (net net' : network) :
  run (gateway_proxy services service path request) net
  = run (gateway_proxy services service path request) net'.
Proof.
  destruct (get service services) as [u|] eqn:H.
  - destruct (url_query request) as [q|] eqn:Hq.
    + destruct (body request) as [b|] eqn:Hb.
      * now rewrite (gateway_proxy_registered _ _ _ _ net u q b H Hq Hb),
          (gateway_proxy_registered _ _ _ _ net' u q b H Hq Hb).
      * now rewrite (gateway_proxy_disconnected _ _ _ _ net u q H Hq Hb),
          (gateway_proxy_disconnected _ _ _ _ net' u q H Hq Hb).
    + now rewrite (gateway_proxy_invalid_url _ _ _ _ net u H Hq),
        (gateway_proxy_invalid_url _ _ _ _ net' u H Hq).
  - now rewrite (gateway_proxy_unregistered _ _ _ _ net H),
      (gateway_proxy_unregistered _ _ _ _ net' H).
Qed.

Lemma reraised_turns (services : dict string) (net : network) :
  reraised (flat_map (probe_trace net) services) = [].
Proof.
  induction services as [|item services IH]; [reflexivity|].
  cbn [flat_map]. rewrite reraised_app, IH. unfold probe_trace.
  cbn [reraised]. destruct (net _); reflexivity.
Qed.

(** ** The application, by the outcome of routing *)
Lemma app_run_cases (services : dict string) (request : Request)
  (net : network) :
  exists t r last,
    run (app_on services request) net
    = ((Logged (LogRequest (method request) (url_path request)
                  (query_string request))
        :: t ++ [last])%list,
       Return r)
    /\ reraised t = []
    /\ ((last = Logged (LogStatus (status_of r))
         /\ match route_request (method request) (url_path request) with
            | ToEndpoint (GatewayProxy _ _) =>
                r = JSONBody 404
                      (JDict [("detail", JStr "Service not found")]) []
                \/ r = JSONBody 500
                         (JDict [("detail", JStr "Internal Gateway Error")])
                         []
            | ToEndpoint _ => status_of r = 200
            | MethodNotAllowed => status_of r = 405 /\ t = []
            | SlashRedirect _ => status_of r = 307 /\ t = []
            | NotFound => status_of r = 404 /\ t = []
            end)
        \/ (last = Reraised ValueError
            /\ t = []
            /\ r = PlainText 500 "Internal Server Error"
            /\ url_query request = InvalidURL
            /\ exists service path,
                 route_request (method request) (url_path request)
                 = ToEndpoint (GatewayProxy service path)
                 /\ contains service services = true)).
Proof.
  destruct (route_request (method request) (url_path request))
    as [[| | |service path]|  |p| ] eqn:Hr.
  - exists [], OpenAPISchema, (Logged (LogStatus 200)).
    unfold run, app_on, server_error_middleware, log_requests,
      exception_middleware, router, call_endpoint, try_except, bind, emit,
      raise, ret. rewrite Hr. split; [reflexivity|]. split; [reflexivity|].
    left. now split.
  - eexists [], _, (Logged (LogStatus 200)).
    unfold run, app_on, server_error_middleware, log_requests,
      exception_middleware, router, call_endpoint, root, try_except, bind,
      emit, raise, ret. rewrite Hr. split; [reflexivity|].
    split; [reflexivity|]. left. now split.
  - eexists _, _, (Logged (LogStatus 200)).
    unfold run, app_on, server_error_middleware, log_requests,
      exception_middleware, router, call_endpoint, try_except, bind,
      emit, raise, ret. rewrite Hr.
    pose proof (health_check_any services net) as Hh. unfold run in Hh.
    rewrite Hh. cbn [fst snd]. rewrite app_nil_r.
    split; [reflexivity|]. split; [apply reraised_turns|]. left. now split.
  - destruct (app_proxy_cases services request net service path Hr)
      as (t & e & r & last & Hg & Happ & Hcase).
    destruct (gateway_proxy_cases services service path request net)
      as (t' & e' & Hg' & _ & _ & Hre & _).
    rewrite Hg in Hg'. injection Hg' as <- <-.
    exists t, r, last. split; [exact Happ|]. split; [exact Hre|].
    destruct Hcase as [(_ & -> & ->)|[(_ & -> & ->)|
                        (_ & Hq & -> & Hc & -> & ->)]].
    + left. split; [reflexivity | now left].
    + left. split; [reflexivity | now right].
    + right. repeat split; try assumption. now exists service, path.
  - exists [],
      (JSONBody 405 (JDict [("detail", JStr "Method Not Allowed")]) []),
      (Logged (LogStatus 405)).
    rewrite (app_method_not_allowed services request net Hr).
    split; [reflexivity|]. split; [reflexivity|]. left. now repeat split.
  - exists [], (RedirectTo p), (Logged (LogStatus 307)).
    unfold run, app_on, server_error_middleware, log_requests,
      exception_middleware, router, try_except, bind, emit, raise, ret.
    rewrite Hr. split; [reflexivity|]. split; [reflexivity|].
    left. now repeat split.
  - exists [], (JSONBody 404 (JDict [("detail", JStr "Not Found")]) []),
      (Logged (LogStatus 404)).
    unfold run, app_on, server_error_middleware, log_requests,
      exception_middleware, router, try_except, bind, emit, raise, ret.
    rewrite Hr. split; [reflexivity|]. split; [reflexivity|].
    left. now repeat split.
Qed.

(** ** The extra properties *)

(** X1.  Every request is answered with one response, and the middleware
    [log_requests] writes the request record first.  Unless line 55 raised,
    its last record is the status of the very response it hands back and no
    exception leaves the application.  Line 55 raises for a request handed
    to [gateway_proxy] for a registered service whose [request.url] does not
    parse: then nothing else is logged, the caller gets the plain 500 and the
    [ValueError] is raised on to the server. *)
Theorem X1_every_request_answered_and_logged
  (services : dict string) (request : Request) (net : network) :
  let o := run (app_on services request) net in
  let first := Logged (LogRequest (method request) (url_path request)
                         (query_string request)) in
  exists r,
    outcome o = Return r
    /\ ((exists t,
           trace o
           = (first :: t ++ [Logged (LogStatus (status_of r))])%list)
         /\ reraised (trace o) = []
        \/ trace o = [first; Reraised ValueError]
           /\ r = PlainText 500 "Internal Server Error"
           /\ url_query request = InvalidURL
           /\ exists service path,
                route_request (method request) (url_path request)
                = ToEndpoint (GatewayProxy service path)
                /\ contains service services = true)
    /\ (forall q, url_query request = Query q -> reraised (trace o) = []).
Proof.
  intros o first. subst o first.
  destruct (app_run_cases services request net)
    as (t & r & last & Hrun & Hre & Hcase).
  exists r. rewrite Hrun. cbn [trace outcome fst snd].
  split; [reflexivity|].
  destruct Hcase as [(-> & _)|(-> & -> & -> & Hq & Hroute)].
  - assert (Hnone : reraised
                      (Logged (LogRequest (method request) (url_path request)
                                 (query_string request))
                       :: t ++ [Logged (LogStatus (status_of r))]) = []).
    { cbn [reraised]. rewrite reraised_app, Hre. reflexivity. }
    split; [left; split; [now exists t | exact Hnone]|].
    intros q _. exact Hnone.
  - split; [right; now repeat split|].
    intros q Hq'. rewrite Hq in Hq'. discriminate.
Qed.

(** X2.  The status of the answer is 200, 307, 404, 405 or 500, so
    never 502, 503 or 504; and a request handed to [gateway_proxy] gets the
    404 of an unknown service, the 500 of the generic clause or, when
    [request.url] does not parse, the plain 500 of the framework: never a
    success and never a body of a backend. *)
Theorem X2_statuses_answered
  (services : dict string) (request : Request) (net : network) :
  exists r,
    outcome (run (app_on services request) net) = Return r
    /\ In (status_of r) [200; 307; 404; 405; 500]
    /\ (forall service path,
          route_request (method request) (url_path request)
          = ToEndpoint (GatewayProxy service path) ->
          r = JSONBody 404 (JDict [("detail", JStr "Service not found")]) []
          \/ r = JSONBody 500
                   (JDict [("detail", JStr "Internal Gateway Error")]) []
          \/ (r = PlainText 500 "Internal Server Error"
              /\ url_query request = InvalidURL
              /\ contains service services = true)).
Proof.
  destruct (app_run_cases services request net)
    as (t & r & last & Hrun & _ & Hcase).
  exists r. rewrite Hrun. split; [reflexivity|].
  destruct Hcase as [(_ & Hcase)|(_ & _ & -> & Hq & s & p & Hroute & Hc)].
  - destruct (route_request (method request) (url_path request))
      as [[| | |service path]|  |p| ].
    + split; [rewrite Hcase; simpl; tauto | discriminate].
    + split; [rewrite Hcase; simpl; tauto | discriminate].
    + split; [rewrite Hcase; simpl; tauto | discriminate].
    + split; [|intros s p _; tauto].
      destruct Hcase as [-> | ->]; simpl; tauto.
    + destruct Hcase as [Hs _].
      split; [rewrite Hs; simpl; tauto | discriminate].
    + destruct Hcase as [Hs _].
      split; [rewrite Hs; simpl; tauto | discriminate].
    + destruct Hcase as [Hs _].
      split; [rewrite Hs; simpl; tauto | discriminate].
  - split; [simpl; tauto|].
    intros s' p' Hr'. rewrite Hroute in Hr'. injection Hr' as <- <-.
    right. right. now repeat split.
Qed.

Lemma X2_witness :
  route_request (method get_user_bracket_host) (url_path get_user_bracket_host)
  = ToEndpoint (GatewayProxy "users" "1") /\
  exists r,
    outcome (run (app get_user_bracket_host) all_up) = Return r
    /\ In (status_of r) [200; 307; 404; 405; 500].
Proof.
  split; [reflexivity|].
  destruct (X2_statuses_answered SERVICES get_user_bracket_host all_up)
    as (r & Ho & Hin & _).
  exists r. now split.
Defined.

(** X3.  Outside the health endpoint nothing the caller or the log sees
    depends on the backends: response and trace are the same under any two
    networks. *)
Theorem X3_only_health_depends_on_backends
  (services : dict string) (request : Request) (net net' : network) :
  route_request (method request) (url_path request) <> ToEndpoint HealthCheck ->
  run (app_on services request) net = run (app_on services request) net'.
Proof.
  intros Hne.
  unfold run, app_on, server_error_middleware, log_requests,
    exception_middleware, router, call_endpoint, try_except, bind, emit,
    raise, ret.
  destruct (route_request (method request) (url_path request))
    as [[| | |service path]|  |p| ]; try reflexivity.
  - now contradiction Hne.
  - pose proof (gateway_proxy_ignores_network services service path request
                  net net') as Hg.
    unfold run in Hg. rewrite Hg.
    destruct (gateway_proxy services service path request net')
      as [t [a|e]]; [reflexivity | destruct e; reflexivity].
Qed.

Lemma X3_witness :
  route_request (method get_user) (url_path get_user)
  <> ToEndpoint HealthCheck /\
  run (app get_user) all_up = run (app get_user) all_timing_out.
Proof.
  assert (H : route_request (method get_user) (url_path get_user)
              <> ToEndpoint HealthCheck) by (vm_compute; discriminate).
  split; [exact H|].
  exact (X3_only_health_depends_on_backends SERVICES get_user all_up
           all_timing_out H).
Defined.

(** X4.  [gateway_proxy] builds its httpx call exactly when the service
    is registered, [request.url] parses and the body could be read.  For an
    unknown service it does nothing at all before the 404: no record, no
    read of the URL or the body.  For a registered service whose
    [request.url] does not parse, line 55 raises [ValueError] before
    anything is logged.  When the URL parses and the caller goes away during
    the read of the body, the target URL has been logged, no call is built,
    the disconnect is what the generic clause logs and the answer is the
    500. *)
Theorem X4_call_built_iff
  (services : dict string) (service path : string) (request : Request)
  (net : network) :
  let o := run (gateway_proxy services service path request) net in
  (calls (trace o) <> [] <->
   contains service services = true
   /\ (exists q, url_query request = Query q)
   /\ exists b, body request = BodyBytes b)
  /\ (contains service services = false -> trace o = [])
  /\ (contains service services = true -> url_query request = InvalidURL ->
      o = ([], Raise ValueError))
  /\ (contains service services = true ->
      (exists q, url_query request = Query q) ->
      body request = BodyDisconnect ->
      calls (trace o) = []
      /\ In (Logged (LogErrorOccurred ClientDisconnect)) (trace o)
      /\ outcome o = Raise (HTTPException 500 "Internal Gateway Error")).
Proof.
  intros o. subst o. unfold contains.
  destruct (get service services) as [u|] eqn:H.
  - destruct (url_query request) as [q|] eqn:Hq.
    + destruct (body request) as [b|] eqn:Hb.
      * rewrite (gateway_proxy_registered _ _ _ _ net u q b H Hq Hb).
        split; [|split; [discriminate|split; discriminate]].
        split; [|discriminate].
        intros _. split; [reflexivity|]. split; [now exists q | now exists b].
      * rewrite (gateway_proxy_disconnected _ _ _ _ net u q H Hq Hb).
        split; [|split; [discriminate|split; [discriminate|]]].
        -- split; [intros Hc; now contradiction Hc|].
           intros (_ & _ & b & Hb'). discriminate.
        -- intros _ _ _. simpl. tauto.
    + rewrite (gateway_proxy_invalid_url _ _ _ _ net u H Hq).
      split; [|split; [discriminate|split; [reflexivity|]]].
      * split; [intros Hc; now contradiction Hc|].
        intros (_ & (q & Hq') & _). discriminate.
      * intros _ (q & Hq'). discriminate.
  - rewrite (gateway_proxy_unregistered _ _ _ _ net H).
    split; [|split; [reflexivity|split; discriminate]].
    split; [intros Hc; now contradiction Hc | intros [Hc _]; discriminate].
Qed.

Lemma X4_witness :
  contains "users" SERVICES = true /\
  url_query get_user_bracket_host = InvalidURL /\
  run (gateway_proxy SERVICES "users" "1" get_user_bracket_host) all_up
  = ([], Raise ValueError) /\
  (exists q,
     url_query put_user_disconnected
     = Query q) /\
  body put_user_disconnected
  = BodyDisconnect /\
  outcome (run (gateway_proxy SERVICES "users" "1"
                  put_user_disconnected)
             all_up)
  = Raise (HTTPException 500 "Internal Gateway Error").
Proof.
  split; [reflexivity|]. split; [reflexivity|].
  split;
    [exact (proj1 (proj2 (proj2
              (X4_call_built_iff SERVICES "users" "1" get_user_bracket_host
                 all_up))) eq_refl eq_refl)|].
  assert (Hq : exists q,
             url_query put_user_disconnected = Query q)
    by (exists ""; reflexivity).
  split; [exact Hq|]. split; [reflexivity|].
  exact (proj2 (proj2 (proj2 (proj2 (proj2
           (X4_call_built_iff SERVICES "users" "1"
              put_user_disconnected
              all_up)))
           eq_refl Hq eq_refl))).
Defined.

(** X5.  For a request whose [request.url.query] is empty the target URL
    is the service URL, a slash and the path, with no question mark
    added. *)
Theorem X5_no_query_no_question_mark
  (services : dict string) (service path service_url : string)
  (request : Request) (net : network) :
  get service services = Some service_url ->
  url_query request = Query "" ->
  let o := run (gateway_proxy services service path request) net in
  In (Logged (LogRedirecting (service_url ++ "/" ++ path))) (trace o)
  /\ (forall b, body request = BodyBytes b ->
        map u_url (calls (trace o)) = [service_url ++ "/" ++ path]).
Proof.
  intros H Hq o. subst o.
  change (service_url ++ "/" ++ path) with (target_url_of service_url path "").
  split.
  - destruct (body request) as [b|] eqn:Hb.
    + rewrite (gateway_proxy_registered _ _ _ _ net service_url "" b H Hq Hb).
      now left.
    + rewrite (gateway_proxy_disconnected _ _ _ _ net service_url "" H Hq Hb).
      now left.
  - intros b Hb.
    now rewrite (gateway_proxy_registered _ _ _ _ net service_url "" b H Hq
                   Hb).
Qed.

Lemma X5_witness :
  get "orders" SERVICES = Some "http://localhost:8002" /\
  url_query post_order = Query "" /\
  map u_url (calls (trace (run (gateway_proxy SERVICES "orders" "checkout"
                                  post_order) all_up)))
  = ["http://localhost:8002/checkout"].
Proof.
  split; [reflexivity|]. split; [reflexivity|].
  exact (proj2 (X5_no_query_no_question_mark SERVICES "orders" "checkout"
                  "http://localhost:8002" post_order all_up eq_refl eq_refl)
           "{}" eq_refl).
Defined.

(** X6.  The headers of the httpx call never hold a name twice, and a
    name is among them exactly when the request carries it and its
    lower-cased form is neither [host] nor [connection]. *)
Theorem X6_call_headers_distinct
  (services : dict string) (service path service_url b : string)
  (request : Request) (net : network) :
  get service services = Some service_url ->
  body request = BodyBytes b ->
  forall req,
    In req (calls (trace (run (gateway_proxy services service path request)
                            net))) ->
    wf (u_headers req)
    /\ (forall k,
          In k (keys (u_headers req))
          <-> In k (keys (headers request))
              /\ PyStr.mem (PyStr.lower k) ["host"; "connection"] = false).
Proof.
  intros Hg Hb req Hin.
  destruct (url_query request) as [q|] eqn:Hq;
    [|rewrite (gateway_proxy_invalid_url _ _ _ _ net service_url Hg Hq)
        in Hin; destruct Hin].
  rewrite (gateway_proxy_registered _ _ _ _ net service_url q b Hg Hq Hb)
    in Hin.
  cbn [trace fst calls In] in Hin. destruct Hin as [<-|[]]. cbn [u_headers].
  split; [apply wf_of_items|].
  intros k. rewrite in_keys_of_items.
  change forwarded
    with (fun kv : string * string =>
            (fun n => negb (PyStr.mem (PyStr.lower n)
                              ["host"; "connection"])) (fst kv)).
  rewrite in_keys_filter_key.
  destruct (PyStr.mem (PyStr.lower k) ["host"; "connection"]); simpl;
    intuition congruence.
Qed.

Lemma X6_witness :
  let request :=
    mkRequest "GET" "/users/1" "" (Query "")
      [("accept", "text/html"); ("Host", "gateway"); ("accept", "*/*")]
      (BodyBytes "") in
  let req := mkUpstream "GET" "http://localhost:8001/1" [("accept", "*/*")] ""
  in
  get "users" SERVICES = Some "http://localhost:8001" /\
  body request = BodyBytes "" /\
  In req (calls (trace (run (gateway_proxy SERVICES "users" "1" request)
                          all_up))) /\
  wf (u_headers req).
Proof.
  intros request req.
  split; [reflexivity|]. split; [reflexivity|].
  assert (Hin : In req (calls (trace (run (gateway_proxy SERVICES "users" "1"
                                            request) all_up))))
    by (left; reflexivity).
  split; [exact Hin|].
  exact (proj1 (X6_call_headers_distinct SERVICES "users" "1"
                  "http://localhost:8001" "" request all_up eq_refl eq_refl
                  req Hin)).
Defined.

(** X7.  Whatever the table holds and however the backends answer,
    [health_check] returns its document without raising; it builds one GET
    on [service_url/health] per service, in table order, with no headers and
    no body, and awaits every call it builds, so a failing service does not
    stop the probes that follow. *)
Theorem X7_health_check_probes_every_service
  (services : dict string) (net : network) :
  let o := run (health_check services) net in
  (exists per, outcome o = Return (status_doc per))
  /\ calls (trace o)
     = map (fun item => mkUpstream "GET" (snd item ++ "/health") [] "")
         services
  /\ exchanges (trace o) = calls (trace o).
Proof.
  intros o. subst o. rewrite (health_check_any services net).
  cbn [trace outcome fst snd].
  split; [eexists; reflexivity|].
  rewrite calls_turns, exchanges_turns, map_map. now split.
Qed.

(** X8.  [health_check] logs an error record for a service exactly when
    its probe failed, with the exception the failure raised; for a table with
    distinct names a service with such a record stands as "unhealthy" in the
    document. *)
Theorem X8_health_check_logs_failed_probes
  (services : dict string) (net : network) (service_name : string) (e : exn) :
  let o := run (health_check services) net in
  (In (Logged (LogNotAlive service_name e)) (trace o)
   <-> exists service_url f,
         In (service_name, service_url) services
         /\ net (probe service_url) = Fails f
         /\ e = exn_of_failure f)
  /\ (wf services ->
      In (Logged (LogNotAlive service_name e)) (trace o) ->
      exists per,
        outcome o = Return (status_doc per)
        /\ get service_name per = Some (JStr "unhealthy")).
Proof.
  intros o. subst o. split.
  - rewrite (health_check_any services net). cbn [trace fst].
    apply not_alive_logged.
  - intros Hwf Hlog. rewrite (health_check_trace services net Hwf) in *.
    cbn [trace outcome fst snd] in *.
    apply not_alive_logged in Hlog. destruct Hlog as (url & f & Hin & Hn & _).
    eexists. split; [reflexivity|].
    rewrite (get_entry net services service_name url Hwf Hin).
    unfold probe_status. now rewrite Hn.
Qed.

Lemma X8_witness :
  wf SERVICES /\
  In (Logged (LogNotAlive "users" ConnectError))
     (trace (run (health_check SERVICES) users_unreachable)) /\
  exists per,
    outcome (run (health_check SERVICES) users_unreachable)
    = Return (status_doc per)
    /\ get "users" per = Some (JStr "unhealthy").
Proof.
  assert (Hlog : In (Logged (LogNotAlive "users" ConnectError))
                   (trace (run (health_check SERVICES) users_unreachable)))
    by (vm_compute; tauto).
  split; [exact SERVICES_wf|]. split; [exact Hlog|].
  exact (proj2 (X8_health_check_logs_failed_probes SERVICES users_unreachable
                  "users" ConnectError) SERVICES_wf Hlog).
Defined.

Lemma route_root (m : string) :
  route_request m "/"
  = if String.eqb m "GET" then ToEndpoint Root else MethodNotAllowed.
Proof.
  unfold route_request, routes, first_full, any_match, matches.
  change (route_path OpenAPIRoute "/") with (@None endpoint).
  change (route_path RootRoute "/") with (Some Root).
  change (route_path HealthRoute "/") with (@None endpoint).
  change (route_path ProxyRoute "/") with (@None endpoint).
  cbn [route_methods PyStr.mem].
  destruct (String.eqb m "GET"); reflexivity.
Qed.

Lemma route_health (m : string) :
  route_request m "/health"
  = if String.eqb m "GET" then ToEndpoint HealthCheck else MethodNotAllowed.
Proof.
  unfold route_request, routes, first_full, any_match, matches.
  change (route_path OpenAPIRoute "/health") with (@None endpoint).
  change (route_path RootRoute "/health") with (@None endpoint).
  change (route_path HealthRoute "/health") with (Some HealthCheck).
  change (route_path ProxyRoute "/health") with (@None endpoint).
  cbn [route_methods PyStr.mem].
  destruct (String.eqb m "GET"); reflexivity.
Qed.

(** X9.  A GET on [/] is answered 200 with the welcome message and the
    names of the table in its order; nothing is built for a backend.  Any
    other method on [/] is answered 405. *)
Theorem X9_root_endpoint
  (services : dict string) (request : Request) (net : network) :
  url_path request = "/" ->
  run (app_on services request) net
  = if String.eqb (method request) "GET" then
      ([ Logged (LogRequest (method request) "/" (query_string request));
         Logged (LogStatus 200) ],
       Return (JSONBody 200
                 (JDict [ ("message", JStr "Welcome to the API Gateway");
                          ("services", JList (map JStr (keys services))) ])
                 []))
    else
      ([ Logged (LogRequest (method request) "/" (query_string request));
         Logged (LogStatus 405) ],
       Return (JSONBody 405 (JDict [("detail", JStr "Method Not Allowed")])
                 [])).
Proof.
  intros Hp.
  unfold run, app_on, server_error_middleware, log_requests,
    exception_middleware, router, call_endpoint, root, try_except, bind,
    emit, raise, ret.
  rewrite Hp, route_root.
  destruct (String.eqb (method request) "GET"); reflexivity.
Qed.

Lemma X9_witness :
  url_path get_root = "/" /\
  outcome (run (app get_root) all_timing_out)
  = Return (JSONBody 200
              (JDict [ ("message", JStr "Welcome to the API Gateway");
                       ("services",
                        JList [JStr "users"; JStr "orders"; JStr "products"])
                     ])
              []).
Proof.
  split; [reflexivity|].
  exact (f_equal snd
           (X9_root_endpoint SERVICES get_root
              all_timing_out eq_refl)).
Defined.

(** X10.  The health endpoint takes GET only: a request on [/health] with
    any other method is answered 405 and no service is probed. *)
Theorem X10_health_endpoint_get_only
  (services : dict string) (request : Request) (net : network) :
  url_path request = "/health" ->
  method request <> "GET" ->
  run (app_on services request) net
  = ([ Logged (LogRequest (method request) "/health" (query_string request));
       Logged (LogStatus 405) ],
     Return (JSONBody 405 (JDict [("detail", JStr "Method Not Allowed")]) []))
  /\ calls (trace (run (app_on services request) net)) = []
  /\ exchanges (trace (run (app_on services request) net)) = [].
Proof.
  intros Hp Hm.
  assert (Hr : route_request (method request) (url_path request)
               = MethodNotAllowed).
  { rewrite Hp, route_health.
    destruct (String.eqb_spec (method request) "GET");
      [contradiction | reflexivity]. }
  rewrite (app_method_not_allowed services request net Hr), Hp.
  repeat split.
Qed.

Lemma X10_witness :
  url_path post_health = "/health" /\
  method post_health <> "GET" /\
  exchanges (trace (run (app post_health) all_up)) = [].
Proof.
  split; [reflexivity|].
  assert (Hm : method post_health
               <> "GET") by discriminate.
  split; [exact Hm|].
  exact (proj2 (proj2
           (X10_health_endpoint_get_only SERVICES
              post_health all_up
              eq_refl Hm))).
Defined.

Lemma get_some_in {V} (k : string) (v : V) (d : dict V) :
  get k d = Some v -> In (k, v) d.
Proof.
  induction d as [|[k' v'] d IH]; simpl; [discriminate|].
  destruct (String.eqb_spec k k') as [->|Hne].
  - intros [= ->]. now left.
  - intros H. right. now apply IH.
Qed.

(** The httpx calls of a run of the application, by the outcome of
    routing. *)
Lemma app_calls (services : dict string) (request : Request) (net : network) :
  calls (trace (run (app_on services request) net))
  = match route_request (method request) (url_path request) with
    | ToEndpoint HealthCheck => map probe (map snd services)
    | ToEndpoint (GatewayProxy service path) =>
        calls (trace (run (gateway_proxy services service path request) net))
    | _ => []
    end.
Proof.
  destruct (route_request (method request) (url_path request))
    as [[| | |service path]|  |p| ] eqn:Hr.
  - unfold run, app_on, server_error_middleware, log_requests,
      exception_middleware, router, call_endpoint, try_except, bind, emit,
      raise, ret. now rewrite Hr.
  - unfold run, app_on, server_error_middleware, log_requests,
      exception_middleware, router, call_endpoint, root, try_except, bind,
      emit, raise, ret. now rewrite Hr.
  - unfold run, app_on, server_error_middleware, log_requests,
      exception_middleware, router, call_endpoint, try_except, bind,
      emit, raise, ret. rewrite Hr.
    pose proof (health_check_any services net) as Hh. unfold run in Hh.
    rewrite Hh. cbn [trace fst snd calls app].
    rewrite !calls_app. cbn [calls]. rewrite !app_nil_r. apply calls_turns.
  - destruct (app_proxy_cases services request net service path Hr)
      as (t & e & r & last & Hg & Happ & Hcase).
    rewrite Happ, Hg. cbn [trace fst calls]. rewrite calls_app.
    destruct Hcase as [(_ & _ & ->)|[(_ & _ & ->)|(_ & _ & _ & _ & _ & ->)]];
      cbn [calls]; now rewrite app_nil_r.
  - now rewrite (app_method_not_allowed services request net Hr).
  - unfold run, app_on, server_error_middleware, log_requests,
      exception_middleware, router, try_except, bind, emit, raise, ret.
    now rewrite Hr.
  - unfold run, app_on, server_error_middleware, log_requests,
      exception_middleware, router, try_except, bind, emit, raise, ret.
    now rewrite Hr.
Qed.

(** X11.  The middleware [log_requests] is transparent: around any
    downstream handler it hands back the very response, or lets through the
    very exception, of [call_next]; it adds no httpx call; and it adds to the
    trace its request record in front and, only when a response came back,
    the status record of that response behind. *)
Theorem X11_log_requests_transparent
  {R : Type} (status_code : R -> Z) (request : Request)
  (call_next : Request -> M R) (net : network) :
  let inner := run (call_next request) net in
  let o := run (log_requests status_code request call_next) net in
  outcome o = outcome inner
  /\ calls (trace o) = calls (trace inner)
  /\ exchanges (trace o) = exchanges (trace inner)
  /\ trace o
     = (Logged (LogRequest (method request) (url_path request)
                  (query_string request))
        :: trace inner
           ++ match outcome inner with
              | Return response => [Logged (LogStatus (status_code response))]
              | Raise _ => []
              end)%list.
Proof.
  intros inner o. subst inner o.
  unfold run, log_requests, bind, emit, ret.
  destruct (call_next request net) as [t [r|e]];
    cbn [trace outcome fst snd app calls exchanges].
  - rewrite ?app_nil_r, !calls_app, !exchanges_app.
    cbn [calls exchanges]. rewrite ?app_nil_r, ?app_nil_l. repeat split.
  - rewrite ?app_nil_r. repeat split.
Qed.

(** X12.  The application never addresses a URL outside its table:
    every httpx call a run builds, for a probe or for a proxied request,
    goes to a URL that starts with the URL of a configured service. *)
Theorem X12_calls_only_to_configured_urls
  (services : dict string) (request : Request) (net : network)
  (req : upstream_request) :
  In req (calls (trace (run (app_on services request) net))) ->
  exists service_name service_url,
    In (service_name, service_url) services
    /\ String.prefix service_url (u_url req) = true.
Proof.
  rewrite app_calls.
  destruct (route_request (method request) (url_path request))
    as [[| | |service path]|  |p| ]; try (intros []).
  - rewrite map_map. intros Hin. apply in_map_iff in Hin.
    destruct Hin as [[name url] [<- Hin]].
    exists name, url. split; [exact Hin|]. apply prefix_append.
  - intros Hin.
    destruct (gateway_proxy_cases services service path request net)
      as (t & e & Hg & _ & _ & _ & _ & Hurl).
    rewrite Hg in Hin. destruct (Hurl req Hin) as (u & q & Hu & _ & ->).
    exists service, u. split; [now apply get_some_in|].
    apply prefix_target_url.
Qed.

Lemma X12_witness :
  let req :=
    mkUpstream "GET" "http://localhost:8001/search?name=ann&page=2" [] "" in
  In req (calls (trace (run (app get_user_search) all_up))) /\
  exists service_name service_url,
    In (service_name, service_url) SERVICES
    /\ String.prefix service_url (u_url req) = true.
Proof.
  intros req.
  assert (Hin : In req (calls (trace (run (app get_user_search) all_up))))
    by (left; reflexivity).
  split; [exact Hin|].
  exact (X12_calls_only_to_configured_urls SERVICES get_user_search all_up
           req Hin).
Defined.
